(** * JobSpy API: the request-orchestration boundary of [app/main.py]

    A shallow embedding of the FastAPI application in [app/main.py]: the
    [JobSearchRequest] parameter model and its validation, the parameter
    normaliser [clean_search_params], the tabular-to-record conversion
    [convert_dataframe_to_dict], the [/search] handler with its two
    [except] clauses, and the constant [/], [/health] and [/sites]
    handlers. *)

From Stdlib Require Import ZArith List String Ascii Bool Floats Lia.
From Stdlib Require Import DecimalString.
Import ListNotations.

Set Warnings "-register-all".

Local Open Scope string_scope.
Local Open Scope list_scope.

(** ** Python values

    The objects that flow through the handlers: what [json] parsing
    produces, what [model_dump] and [DataFrame.to_dict] put into
    dictionaries, the two pandas sentinels [NaT] and [NA], and a pandas
    [Timestamp] by its nanoseconds since the epoch. A Python [float] is an
    IEEE binary64 number, so [nan] is [PFloat nan]. *)

Inductive pyval : Type :=
| PNone
| PBool (b : bool)
| PInt (n : Z)
| PFloat (f : float)
| PStr (s : string)
| PList (l : list pyval)
| PDict (d : list (string * pyval))
| PNaT
| PNA
| PTimestamp (ns : Z).

(** A [dict] keeps its keys in insertion order; the keys are distinct. *)
Definition dict : Type := list (string * pyval).

Definition keys (d : dict) : list string := map fst d.

(** [d.get(k)] *)
Fixpoint dict_get (d : dict) (k : string) : option pyval :=
  match d with
  | [] => None
  | (k', v) :: d' => if String.eqb k' k then Some v else dict_get d' k
  end.

(** [d[k] = v]: an existing key keeps its position and takes the new
    value, a new key goes to the end. *)
Fixpoint dict_set (k : string) (v : pyval) (d : dict) : dict :=
  match d with
  | [] => [(k, v)]
  | (k', v') :: d' =>
      if String.eqb k' k then (k', v) :: d' else (k', v') :: dict_set k v d'
  end.

(** [dict(pairs)]: insertion of the pairs from left to right. *)
Definition dict_of_pairs (pairs : list (string * pyval)) : dict :=
  fold_left (fun out kv => dict_set (fst kv) (snd kv) out) pairs [].

(** [v is None] *)
Definition is_none (v : pyval) : bool :=
  match v with
  | PNone => true
  | _ => false
  end.

(** [str(n)] and [f"{n}"] for an [int]. *)
Definition str_of_int (n : Z) : string :=
  NilZero.string_of_int (Z.to_int n).

(** ** Pydantic models *)

Record JobSearchRequest : Type := {
  site_name : option (list string);
  search_term : option string;
  google_search_term : option string;
  location : option string;
  results_wanted : option Z;
  hours_old : option Z;
  job_type : option string;
  is_remote : option bool;
  distance : option Z;
  country_indeed : option string;
  easy_apply : option bool;
  description_format : option string;
  linkedin_fetch_description : option bool;
  linkedin_company_ids : option (list Z);
  offset : option Z;
  enforce_annual_salary : option bool;
  proxies : option (list string);
  ca_cert : option string;
  verbose : option Z
}.

Record JobSearchResponse : Type := {
  success : bool;
  total_jobs : Z;
  jobs : list dict;
  search_params : dict;
  execution_time : float;
  message : string
}.

Record HealthResponse : Type := {
  status : string;
  version : string;
  timestamp : string
}.

(** The field names of [JobSearchRequest], in declaration order. *)
Definition field_names : list string :=
  [ "site_name"; "search_term"; "google_search_term"; "location";
    "results_wanted"; "hours_old"; "job_type"; "is_remote"; "distance";
    "country_indeed"; "easy_apply"; "description_format";
    "linkedin_fetch_description"; "linkedin_company_ids"; "offset";
    "enforce_annual_salary"; "proxies"; "ca_cert"; "verbose" ].

(** The [default=] of every [Field(...)]. *)
Definition default_request : JobSearchRequest := {|
  site_name := Some ["indeed"; "linkedin"; "glassdoor"];
  search_term := None;
  google_search_term := None;
  location := None;
  results_wanted := Some 20%Z;
  hours_old := None;
  job_type := None;
  is_remote := None;
  distance := Some 50%Z;
  country_indeed := Some "USA";
  easy_apply := None;
  description_format := Some "markdown";
  linkedin_fetch_description := Some false;
  linkedin_company_ids := None;
  offset := None;
  enforce_annual_salary := None;
  proxies := None;
  ca_cert := None;
  verbose := Some 1%Z
|}.

(** *** [request.model_dump()] *)

Definition dump_opt {T : Type} (f : T -> pyval) (o : option T) : pyval :=
  match o with
  | Some x => f x
  | None => PNone
  end.

(** A Python list of [str], and one of [int]. *)
Definition str_list (l : list string) : pyval := PList (map PStr l).
Definition int_list (l : list Z) : pyval := PList (map PInt l).

Definition model_dump (r : JobSearchRequest) : dict :=
  [ ("site_name", dump_opt str_list (site_name r));
    ("search_term", dump_opt PStr (search_term r));
    ("google_search_term", dump_opt PStr (google_search_term r));
    ("location", dump_opt PStr (location r));
    ("results_wanted", dump_opt PInt (results_wanted r));
    ("hours_old", dump_opt PInt (hours_old r));
    ("job_type", dump_opt PStr (job_type r));
    ("is_remote", dump_opt PBool (is_remote r));
    ("distance", dump_opt PInt (distance r));
    ("country_indeed", dump_opt PStr (country_indeed r));
    ("easy_apply", dump_opt PBool (easy_apply r));
    ("description_format", dump_opt PStr (description_format r));
    ("linkedin_fetch_description",
       dump_opt PBool (linkedin_fetch_description r));
    ("linkedin_company_ids", dump_opt int_list (linkedin_company_ids r));
    ("offset", dump_opt PInt (offset r));
    ("enforce_annual_salary", dump_opt PBool (enforce_annual_salary r));
    ("proxies", dump_opt str_list (proxies r));
    ("ca_cert", dump_opt PStr (ca_cert r));
    ("verbose", dump_opt PInt (verbose r)) ].

(** ** Utility functions *)

(** [{k: v for k, v in params.items() if v is not None}] *)
Definition clean_search_params (params : dict) : dict :=
  fold_left
    (fun out kv =>
       if is_none (snd kv) then out else dict_set (fst kv) (snd kv) out)
    params [].


(** ** Tabular results

    A pandas [DataFrame] as the handler sees it: the column labels, the
    [dtype] of each column, and the cells row by row. [pd.notnull] returns
    a frame of booleans of the same shape. *)

(** The dtypes of the columns: Python objects, or a numpy array of
    floats, of timestamps, of integers or of booleans. *)
Inductive dtype : Type :=
| object
| float64
| datetime64
| int64
| bool_dtype.

Record DataFrame (A : Type) : Type := {
  columns : list string;
  dtypes : list dtype;
  cells : list (list A)
}.
Arguments columns {A} d.
Arguments dtypes {A} d.
Arguments cells {A} d.

(** The cells that a column of each dtype can hold: anything in an object
    column, a float (also [nan]) in a float64 column, a timestamp or [NaT]
    in a datetime64 column, an integer or a boolean in the two others. *)
Definition cell_fits (dt : dtype) (c : pyval) : bool :=
  match dt, c with
  | object, _ => true
  | float64, PFloat _ => true
  | datetime64, (PNaT | PTimestamp _) => true
  | int64, PInt _ => true
  | bool_dtype, PBool _ => true
  | _, _ => false
  end.

(** [pd.notnull] on one cell: [None], [nan], [NaT] and [NA] are the
    missing markers. *)
Definition notnull_scalar (v : pyval) : bool :=
  match v with
  | PNone | PNaT | PNA => false
  | PFloat f => negb (PrimFloat.is_nan f)
  | _ => true
  end.

Definition pd_notnull (df : DataFrame pyval) : DataFrame bool :=
  {| columns := columns df;
     dtypes := map (fun _ => bool_dtype) (dtypes df);
     cells := map (map notnull_scalar) (cells df) |}.

(** What [where] writes into a column for [other]. An object column takes
    [other] as it is. Any other column takes [None] for the missing value
    of its own dtype: [NaT] in a datetime64 column and [nan] in a numeric
    one. *)
Definition other_in_column (dt : dtype) (other : pyval) : pyval :=
  match other with
  | PNone =>
      match dt with
      | object => PNone
      | datetime64 => PNaT
      | float64 | int64 | bool_dtype => PFloat nan
      end
  | _ => other
  end.

Definition where_cell (dt : dtype) (keep : bool) (c other : pyval) : pyval :=
  if keep then c else other_in_column dt other.

(** [df.where(cond, other)] keeps a cell where [cond] holds and writes
    [other] elsewhere, column by column; a cell that [cond] does not cover
    counts as false, and a column without a dtype as an object column. *)
Fixpoint where_row (dts : list dtype) (row : list pyval) (mask : list bool)
  (other : pyval) : list pyval :=
  match row with
  | [] => []
  | c :: row' =>
      where_cell (hd object dts) (hd false mask) c other
      :: where_row (tl dts) row' (tl mask) other
  end.

Fixpoint where_rows (dts : list dtype) (rows : list (list pyval))
  (masks : list (list bool)) (other : pyval) : list (list pyval) :=
  match rows with
  | [] => []
  | r :: rows' =>
      where_row dts r (hd [] masks) other
      :: where_rows dts rows' (tl masks) other
  end.

Definition df_where (df : DataFrame pyval) (cond : DataFrame bool)
  (other : pyval) : DataFrame pyval :=
  {| columns := columns df;
     dtypes := dtypes df;
     cells := where_rows (dtypes df) (cells df) (cells cond) other |}.

(** [df.to_dict("records")]: one [dict(zip(columns, row))] per row, so of
    two columns with the same label the later one wins. *)
Definition to_dict_records (df : DataFrame pyval) : list dict :=
  map (fun row => dict_of_pairs (combine (columns df) row)) (cells df).

Definition convert_dataframe_to_dict (df : DataFrame pyval) : list dict :=
  let df := df_where df (pd_notnull df) PNone in
  to_dict_records df.

(** ** Request validation

    FastAPI hands the parsed JSON body to the pydantic model. Each field
    is [Optional[...]]: a missing key takes the field's default (which is
    not validated), an explicit [null] gives [None], anything else goes
    to the validator of the inner type. Which inputs the scalar types
    accept and convert (pydantic's conversion table) is left open by the
    source; it is the interface [Coercions]. *)

Inductive loc_item : Type :=
| LKey (k : string)
| LIndex (i : nat).

Record validation_error : Type := {
  loc : list loc_item;
  err_type : string
}.

Class Coercions : Type := {
  as_int : pyval -> string + Z;
  as_str : pyval -> string + string;
  as_bool : pyval -> string + bool
}.

(** The conversions that accept a value of exactly the declared JSON type
    and nothing else. Every conversion table agrees with it on an integer
    for [int], a string for [str] and a boolean for [bool]; a table in lax
    mode accepts more (a numeric string for [int], say). *)
#[export] Instance exact_types : Coercions := {|
  as_int v := match v with PInt n => inr n | _ => inl "int_type" end;
  as_str v := match v with PStr s => inr s | _ => inl "string_type" end;
  as_bool v := match v with PBool b => inr b | _ => inl "bool_type" end
|}.

Definition validator (T : Type) : Type :=
  list loc_item -> pyval -> list validation_error + T.

Definition scalar {T : Type} (conv : pyval -> string + T) : validator T :=
  fun at_loc v =>
    match conv v with
    | inl ty => inl [ {| loc := at_loc; err_type := ty |} ]
    | inr x => inr x
    end.

(** [int] with [ge=] and [le=]. *)
Definition bounded_int `{Coercions} (ge le : Z) : validator Z :=
  fun at_loc v =>
    match scalar as_int at_loc v with
    | inl e => inl e
    | inr n =>
        if (n <? ge)%Z then
          inl [ {| loc := at_loc; err_type := "greater_than_equal" |} ]
        else if (le <? n)%Z then
          inl [ {| loc := at_loc; err_type := "less_than_equal" |} ]
        else inr n
    end.

(** The items of a [List[...]]: every failing item reports its index. *)
Fixpoint list_items {T : Type} (item : validator T) (at_loc : list loc_item)
  (i : nat) (l : list pyval) : list validation_error * list T :=
  match l with
  | [] => ([], [])
  | v :: l' =>
      let (errs, xs) := list_items item at_loc (S i) l' in
      match item (at_loc ++ [LIndex i]) v with
      | inl e => (e ++ errs, xs)
      | inr x => (errs, x :: xs)
      end
  end.

Definition list_of {T : Type} (item : validator T) : validator (list T) :=
  fun at_loc v =>
    match v with
    | PList l =>
        match list_items item at_loc 0 l with
        | ([], xs) => inr xs
        | (errs, _) => inl errs
        end
    | _ => inl [ {| loc := at_loc; err_type := "list_type" |} ]
    end.

(** One [Optional[T] = Field(default=...)] of the model. *)
Definition field {T : Type} (inner : validator T) (default : option T)
  (name : string) (body : dict) : list validation_error + option T :=
  match dict_get body name with
  | None => inr default
  | Some PNone => inr None
  | Some v =>
      match inner [LKey "body"; LKey name] v with
      | inl e => inl e
      | inr x => inr (Some x)
      end
  end.

Definition errors_of {T : Type} (r : list validation_error + option T)
  : list validation_error :=
  match r with
  | inl e => e
  | inr _ => []
  end.

Definition value_of {T : Type} (r : list validation_error + option T)
  : option T :=
  match r with
  | inl _ => None
  | inr x => x
  end.

Inductive validation (A : Type) : Type :=
| Valid (a : A)
| Invalid (errors : list validation_error).
Arguments Valid {A} a.
Arguments Invalid {A} errors.

(** The fields of [JobSearchRequest], each with its type, its default and
    its bounds, applied to the body of a request. *)
Section Fields.
Context `{Coercions}.
Variable b : dict.

Definition f_site_name :=
  field (list_of (scalar as_str)) (site_name default_request) "site_name" b.
Definition f_search_term :=
  field (scalar as_str) (search_term default_request) "search_term" b.
Definition f_google_search_term :=
  field (scalar as_str) (google_search_term default_request)
    "google_search_term" b.
Definition f_location :=
  field (scalar as_str) (location default_request) "location" b.
Definition f_results_wanted :=
  field (bounded_int 1 1000) (results_wanted default_request)
    "results_wanted" b.
Definition f_hours_old :=
  field (scalar as_int) (hours_old default_request) "hours_old" b.
Definition f_job_type :=
  field (scalar as_str) (job_type default_request) "job_type" b.
Definition f_is_remote :=
  field (scalar as_bool) (is_remote default_request) "is_remote" b.
Definition f_distance :=
  field (scalar as_int) (distance default_request) "distance" b.
Definition f_country_indeed :=
  field (scalar as_str) (country_indeed default_request) "country_indeed" b.
Definition f_easy_apply :=
  field (scalar as_bool) (easy_apply default_request) "easy_apply" b.
Definition f_description_format :=
  field (scalar as_str) (description_format default_request)
    "description_format" b.
Definition f_linkedin_fetch_description :=
  field (scalar as_bool) (linkedin_fetch_description default_request)
    "linkedin_fetch_description" b.
Definition f_linkedin_company_ids :=
  field (list_of (scalar as_int)) (linkedin_company_ids default_request)
    "linkedin_company_ids" b.
Definition f_offset :=
  field (scalar as_int) (offset default_request) "offset" b.
Definition f_enforce_annual_salary :=
  field (scalar as_bool) (enforce_annual_salary default_request)
    "enforce_annual_salary" b.
Definition f_proxies :=
  field (list_of (scalar as_str)) (proxies default_request) "proxies" b.
Definition f_ca_cert :=
  field (scalar as_str) (ca_cert default_request) "ca_cert" b.
Definition f_verbose :=
  field (bounded_int 0 2) (verbose default_request) "verbose" b.

(** The errors of all fields, in declaration order. *)
Definition request_errors : list validation_error :=
  errors_of f_site_name ++ errors_of f_search_term
  ++ errors_of f_google_search_term ++ errors_of f_location
  ++ errors_of f_results_wanted ++ errors_of f_hours_old
  ++ errors_of f_job_type ++ errors_of f_is_remote
  ++ errors_of f_distance ++ errors_of f_country_indeed
  ++ errors_of f_easy_apply ++ errors_of f_description_format
  ++ errors_of f_linkedin_fetch_description
  ++ errors_of f_linkedin_company_ids ++ errors_of f_offset
  ++ errors_of f_enforce_annual_salary ++ errors_of f_proxies
  ++ errors_of f_ca_cert ++ errors_of f_verbose.

(** The model built from the validated values. *)
Definition request_model : JobSearchRequest := {|
  site_name := value_of f_site_name;
  search_term := value_of f_search_term;
  google_search_term := value_of f_google_search_term;
  location := value_of f_location;
  results_wanted := value_of f_results_wanted;
  hours_old := value_of f_hours_old;
  job_type := value_of f_job_type;
  is_remote := value_of f_is_remote;
  distance := value_of f_distance;
  country_indeed := value_of f_country_indeed;
  easy_apply := value_of f_easy_apply;
  description_format := value_of f_description_format;
  linkedin_fetch_description := value_of f_linkedin_fetch_description;
  linkedin_company_ids := value_of f_linkedin_company_ids;
  offset := value_of f_offset;
  enforce_annual_salary := value_of f_enforce_annual_salary;
  proxies := value_of f_proxies;
  ca_cert := value_of f_ca_cert;
  verbose := value_of f_verbose
|}.
End Fields.

(** Validation of the request body against [JobSearchRequest]: every field
    is validated, the errors of all fields are collected, and the model is
    built only when there is none. Keys of the body that name no field are
    ignored. *)
Definition validate_request `{Coercions} (body : pyval)
  : validation JobSearchRequest :=
  match body with
  | PDict b =>
      match request_errors b with
      | [] => Valid (request_model b)
      | errors => Invalid errors
      end
  | _ =>
      Invalid [ {| loc := [LKey "body"]; err_type := "model_attributes_type" |} ]
  end.

(** The site identifiers that the description of [site_name] lists. *)
Definition recognized_sites : list string :=
  [ "linkedin"; "indeed"; "glassdoor"; "zip_recruiter"; "google"; "bayt";
    "naukri" ].

Definition is_recognized_site (s : string) : bool :=
  existsb (String.eqb s) recognized_sites.

(** ** The process around the handlers

    What a handler reads from outside: the outcome of
    [from jobspy import scrape_jobs], the engine itself (which may answer
    differently at each call), and the system clock. What it changes: the
    number of clock reads, the calls made to the engine and the log. *)

Inductive exn_class : Type :=
| ImportError
| OtherException.

(** An exception that [except Exception] catches: its class, as far as the
    [except] clauses tell classes apart, and [str(e)]. *)
Record exn : Type := {
  exn_class_of : exn_class;
  exn_str : string
}.

Record datetime : Type := {
  year : nat;
  month : nat;
  day : nat;
  hour : nat;
  minute : nat;
  second : nat;
  microsecond : nat
}.

Definition engine : Type := nat -> dict -> exn + DataFrame pyval.

Record World : Type := {
  jobspy_import : exn + engine;
  clock_time : nat -> float;
  clock_now : nat -> datetime
}.

Inductive log_record : Type :=
| InfoStarting (params : dict)
| InfoFound (n : nat) (seconds : float)
| ErrorImport (e : exn)
| ErrorSearch (e : exn).

Record ServerState : Type := {
  clock_reads : nat;
  engine_calls : list dict;
  log : list log_record
}.

Definition initial_state : ServerState :=
  {| clock_reads := 0; engine_calls := []; log := [] |}.

(** Computations that read and change the process state and may raise. *)
Definition M (A : Type) : Type := ServerState -> (exn + A) * ServerState.

Definition ret {A : Type} (a : A) : M A := fun s => (inr a, s).

Definition raise {A : Type} (e : exn) : M A := fun s => (inl e, s).

Definition bind {A B : Type} (m : M A) (k : A -> M B) : M B :=
  fun s =>
    match m s with
    | (inl e, s') => (inl e, s')
    | (inr a, s') => k a s'
    end.

Declare Scope py_scope.
Delimit Scope py_scope with py.
Notation "x <- m ;; k" := (bind m (fun x => k))
  (at level 100, m at next level, right associativity) : py_scope.
Notation "m ;; k" := (bind m (fun _ => k))
  (at level 100, right associativity) : py_scope.

(** [from jobspy import scrape_jobs] *)
Definition import_scrape_jobs (w : World) : M engine :=
  match jobspy_import w with
  | inl e => raise e
  | inr scrape_jobs => ret scrape_jobs
  end.

(** [time.time()] *)
Definition time_time (w : World) : M float :=
  fun s =>
    (inr (clock_time w (clock_reads s)),
     {| clock_reads := S (clock_reads s);
        engine_calls := engine_calls s;
        log := log s |}).

(** [datetime.now()] *)
Definition datetime_now (w : World) : M datetime :=
  fun s =>
    (inr (clock_now w (clock_reads s)),
     {| clock_reads := S (clock_reads s);
        engine_calls := engine_calls s;
        log := log s |}).

Definition logger (r : log_record) : M unit :=
  fun s =>
    (inr tt,
     {| clock_reads := clock_reads s;
        engine_calls := engine_calls s;
        log := log s ++ [r] |}).

(** [scrape_jobs] called with the entries of [search_params] as keyword
    arguments: the call is recorded, then the engine returns a frame or
    raises. *)
Definition call_engine (scrape_jobs : engine) (search_params : dict)
  : M (DataFrame pyval) :=
  fun s =>
    let s' := {| clock_reads := clock_reads s;
                 engine_calls := engine_calls s ++ [search_params];
                 log := log s |} in
    (scrape_jobs (List.length (engine_calls s)) search_params, s').

(** ** Routes *)

Record HTTPException : Type := {
  status_code : Z;
  detail : string
}.

(** What FastAPI has in hand when a handler is done, before it renders
    the response: the handler's return value for status 200, a raised
    [HTTPException] for [{"detail": ...}] under its status code, the list
    of errors of a body that fails validation for status 422, and any
    other exception leaving a handler for status 500. The rendering
    itself (the return value checked against [response_model] and written
    as JSON, the errors written as JSON), which can fail and then ends in
    a plain status 500, is not part of the model. *)
Inductive http_response (A : Type) : Type :=
| Ok200 (content : A)
| HTTPError (e : HTTPException)
| Unprocessable422 (errors : list validation_error)
| InternalServerError500.
Arguments Ok200 {A} content.
Arguments HTTPError {A} e.
Arguments Unprocessable422 {A} errors.
Arguments InternalServerError500 {A}.

(** *** [datetime.isoformat()] of a naive [datetime] *)

Fixpoint zeros (n : nat) : string :=
  match n with
  | O => ""
  | S n' => "0" ++ zeros n'
  end.

(** [%0wd] *)
Definition zfill (width n : nat) : string :=
  let s := str_of_int (Z.of_nat n) in
  zeros (width - String.length s) ++ s.

Definition isoformat (d : datetime) : string :=
  zfill 4 (year d) ++ "-" ++ zfill 2 (month d) ++ "-" ++ zfill 2 (day d)
  ++ "T" ++ zfill 2 (hour d) ++ ":" ++ zfill 2 (minute d) ++ ":"
  ++ zfill 2 (second d)
  ++ (if Nat.eqb (microsecond d) 0 then ""
      else "." ++ zfill 6 (microsecond d)).

(** *** [GET /] and [GET /health] *)

Definition root (w : World) : M HealthResponse :=
  (now <- datetime_now w ;;
   ret {| status := "healthy";
          version := "1.0.0";
          timestamp := isoformat now |})%py.

Definition health_check (w : World) : M HealthResponse :=
  (now <- datetime_now w ;;
   ret {| status := "healthy";
          version := "1.0.0";
          timestamp := isoformat now |})%py.

(** *** [POST /search] *)

(** The body of the [try:] block. *)
Definition search_jobs_try (w : World) (request : JobSearchRequest)
  : M JobSearchResponse :=
  (scrape_jobs <- import_scrape_jobs w ;;
   start_time <- time_time w ;;
   let search_params := clean_search_params (model_dump request) in
   logger (InfoStarting search_params) ;;
   jobs_df <- call_engine scrape_jobs search_params ;;
   let jobs_list := convert_dataframe_to_dict jobs_df in
   end_time <- time_time w ;;
   let execution_time := PrimFloat.sub end_time start_time in
   logger (InfoFound (List.length jobs_list) execution_time) ;;
   ret {| success := true;
          total_jobs := Z.of_nat (List.length jobs_list);
          jobs := jobs_list;
          search_params := search_params;
          execution_time := execution_time;
          message :=
            "Successfully found "
            ++ str_of_int (Z.of_nat (List.length jobs_list)) ++ " jobs" |})%py.

(** The two [except] clauses, tried in order. *)
Definition search_jobs_except (e : exn) : M (HTTPException + JobSearchResponse) :=
  match exn_class_of e with
  | ImportError =>
      (logger (ErrorImport e) ;;
       ret (inl {| status_code := 500;
                   detail := "JobSpy library not available" |}))%py
  | OtherException =>
      (logger (ErrorSearch e) ;;
       ret (inl {| status_code := 500;
                   detail := "Search failed: " ++ exn_str e |}))%py
  end.

(** [search_jobs] returns the response ([inr]) or raises an
    [HTTPException] ([inl]). *)
Definition search_jobs (w : World) (request : JobSearchRequest)
  : M (HTTPException + JobSearchResponse) :=
  fun s =>
    match search_jobs_try w request s with
    | (inr response, s') => (inr (inr response), s')
    | (inl e, s') => search_jobs_except e s'
    end.

(** *** [GET /sites] *)

Definition dquote : string := String (ascii_of_nat 34) "".

Definition indeed_glassdoor_countries : list string :=
  [ "Argentina"; "Australia"; "Austria"; "Bahrain"; "Belgium"; "Brazil";
    "Canada"; "Chile"; "China"; "Colombia"; "Costa Rica"; "Czech Republic";
    "Denmark"; "Ecuador"; "Egypt"; "Finland"; "France"; "Germany"; "Greece";
    "Hong Kong"; "Hungary"; "India"; "Indonesia"; "Ireland"; "Israel";
    "Italy"; "Japan"; "Kuwait"; "Luxembourg"; "Malaysia"; "Mexico";
    "Morocco"; "Netherlands"; "New Zealand"; "Nigeria"; "Norway"; "Oman";
    "Pakistan"; "Panama"; "Peru"; "Philippines"; "Poland"; "Portugal";
    "Qatar"; "Romania"; "Saudi Arabia"; "Singapore"; "South Africa";
    "South Korea"; "Spain"; "Sweden"; "Switzerland"; "Taiwan"; "Thailand";
    "Turkey"; "Ukraine"; "United Arab Emirates"; "UK"; "USA"; "Uruguay";
    "Venezuela"; "Vietnam" ].

(** The dictionary literal that [get_supported_sites] returns. *)
Definition capabilities_document : pyval :=
  PDict
    [ ("supported_sites", str_list recognized_sites);
      ("job_types",
         str_list ["fulltime"; "parttime"; "internship"; "contract"]);
      ("description_formats", str_list ["markdown"; "html"]);
      ("supported_countries",
         PDict
           [ ("indeed_glassdoor", str_list indeed_glassdoor_countries);
             ("linkedin", PStr "Global (uses location parameter)");
             ("zip_recruiter", PStr "US/Canada only");
             ("bayt", PStr "International");
             ("google", PStr "Global (requires google_search_term)");
             ("naukri", PStr "India focused") ]);
      ("limitations",
         PDict
           [ ("indeed",
                PStr "Only one of: hours_old, (job_type & is_remote), easy_apply");
             ("linkedin",
                PStr "Only one of: hours_old, easy_apply. Rate limited ~10 pages per IP");
             ("google", PStr "Requires specific google_search_term syntax");
             ("general", PStr "All sites capped at ~1000 jobs per search") ]);
      ("tips",
         PDict
           [ ("indeed_search",
                PStr ("Use quotes for exact match, - to exclude, OR for alternatives. Example: '"
                      ++ dquote ++ "engineering intern" ++ dquote
                      ++ " software summer (java OR python OR c++) 2025 -tax -marketing'"));
             ("google_search",
                PStr "Copy exact search from Google Jobs browser after applying filters");
             ("rate_limiting",
                PStr "Use proxies for LinkedIn, wait between scrapes, Indeed has no rate limiting") ]) ].

Definition get_supported_sites (w : World) : M pyval :=
  ret capabilities_document.

(** *** The application: routing, validation and rendering *)

(** A handler without a body parameter. *)
Definition serve {A : Type} (handler : M A)
  : ServerState -> http_response A * ServerState :=
  fun s =>
    match handler s with
    | (inr a, s') => (Ok200 a, s')
    | (inl _, s') => (InternalServerError500, s')
    end.

Definition get_root (w : World) := serve (root w).
Definition get_health (w : World) := serve (health_check w).
Definition get_sites (w : World) := serve (get_supported_sites w).

(** [POST /search] up to the rendering of the response: the body is
    validated first, the handler runs only on a valid request, and the
    answer is what the handler returned or raised. *)
Definition post_search `{Coercions} (w : World) (body : pyval)
  : ServerState -> http_response JobSearchResponse * ServerState :=
  fun s =>
    match validate_request body with
    | Invalid errors => (Unprocessable422 errors, s)
    | Valid request =>
        match search_jobs w request s with
        | (inr (inr response), s') => (Ok200 response, s')
        | (inr (inl e), s') => (HTTPError e, s')
        | (inl _, s') => (InternalServerError500, s')
        end
    end.

Definition http_status {A : Type} (r : http_response A) : Z :=
  match r with
  | Ok200 _ => 200
  | HTTPError e => status_code e
  | Unprocessable422 _ => 422
  | InternalServerError500 => 500
  end.

Definition loc_item_json (i : loc_item) : pyval :=
  match i with
  | LKey k => PStr k
  | LIndex i => PInt (Z.of_nat i)
  end.

(** The location and the type of a validation error; the entries that
    carry the library's wording are not part of the model. *)
Definition validation_error_json (e : validation_error) : pyval :=
  PDict [ ("loc", PList (map loc_item_json (loc e)));
          ("type", PStr (err_type e)) ].

Definition search_response_json (r : JobSearchResponse) : dict :=
  [ ("success", PBool (success r));
    ("total_jobs", PInt (total_jobs r));
    ("jobs", PList (map PDict (jobs r)));
    ("search_params", PDict (search_params r));
    ("execution_time", PFloat (execution_time r));
    ("message", PStr (message r)) ].

(** The JSON object in the body of the response to [POST /search]. *)
Definition search_body_json (r : http_response JobSearchResponse) : dict :=
  match r with
  | Ok200 response => search_response_json response
  | HTTPError e => [ ("detail", PStr (detail e)) ]
  | Unprocessable422 errors =>
      [ ("detail", PList (map validation_error_json errors)) ]
  | InternalServerError500 => []
  end.

(** ** What the conversion leaves in the place of a cell

    The cell itself when [pd.notnull] accepts it, and otherwise what
    [where] writes into a column of that dtype for [None]. *)
Definition normalized_cell (dt : dtype) (c : pyval) : pyval :=
  where_cell dt (notnull_scalar c) c PNone.

Fixpoint normalized_row (dts : list dtype) (row : list pyval) : list pyval :=
  match row with
  | [] => []
  | c :: row' => normalized_cell (hd object dts) c :: normalized_row (tl dts) row'
  end.

(** The cells that carry a value, and the four missing markers, each told
    by its own shape. *)
Definition present_value (c : pyval) : bool :=
  match c with
  | PBool _ | PInt _ | PStr _ | PList _ | PDict _ | PTimestamp _ => true
  | PFloat f => negb (PrimFloat.is_nan f)
  | PNone | PNaT | PNA => false
  end.

Definition missing_marker (c : pyval) : bool :=
  match c with
  | PNone | PNaT | PNA => true
  | PFloat f => PrimFloat.is_nan f
  | _ => false
  end.

(** ** The runs of the search handler *)

(** The state in which the engine is called: one clock read and the
    [Starting job search] record later. *)
Definition at_engine_call (request : JobSearchRequest) (s : ServerState)
  : ServerState :=
  {| clock_reads := S (clock_reads s);
     engine_calls := engine_calls s ++ [clean_search_params (model_dump request)];
     log := log s ++ [InfoStarting (clean_search_params (model_dump request))] |}.

(** The response that the [try:] block builds from the frame [df]. *)
Definition success_response (w : World) (request : JobSearchRequest)
  (s : ServerState) (df : DataFrame pyval) : JobSearchResponse :=
  let jobs_list := convert_dataframe_to_dict df in
  {| success := true;
     total_jobs := Z.of_nat (List.length jobs_list);
     jobs := jobs_list;
     search_params := clean_search_params (model_dump request);
     execution_time :=
       PrimFloat.sub (clock_time w (S (clock_reads s)))
         (clock_time w (clock_reads s));
     message :=
       "Successfully found "
       ++ str_of_int (Z.of_nat (List.length jobs_list)) ++ " jobs" |}.

(** The three ways in which [search_jobs] ends. *)
Inductive search_outcome (w : World) (request : JobSearchRequest)
  (s : ServerState) : Prop :=
| ImportRaises (e : exn)
    (Himport : jobspy_import w = inl e)
    (Hrun : search_jobs w request s = search_jobs_except e s)
| EngineRaises (scrape_jobs : engine) (e : exn)
    (Himport : jobspy_import w = inr scrape_jobs)
    (Hcall : scrape_jobs (List.length (engine_calls s))
               (clean_search_params (model_dump request)) = inl e)
    (Hrun : search_jobs w request s =
            search_jobs_except e (at_engine_call request s))
| EngineReturns (scrape_jobs : engine) (df : DataFrame pyval) (s' : ServerState)
    (Himport : jobspy_import w = inr scrape_jobs)
    (Hcall : scrape_jobs (List.length (engine_calls s))
               (clean_search_params (model_dump request)) = inr df)
    (Hcalls : engine_calls s' =
              engine_calls s ++ [clean_search_params (model_dump request)])
    (Hrun : search_jobs w request s =
            (inr (inr (success_response w request s df)), s')).

(** ** Scenarios

    Concrete requests, engines and tabular results on which the
    properties below are evaluated. *)

(** A valid request that carries an explicit [0], an explicit [false] and
    an empty sequence. *)
Definition falsy_request : JobSearchRequest := {|
  site_name := Some ["indeed"];
  search_term := Some "software engineer";
  google_search_term := None;
  location := Some "Austin, TX";
  results_wanted := Some 5%Z;
  hours_old := None;
  job_type := None;
  is_remote := Some false;
  distance := Some 0%Z;
  country_indeed := Some "USA";
  easy_apply := None;
  description_format := Some "markdown";
  linkedin_fetch_description := Some false;
  linkedin_company_ids := None;
  offset := None;
  enforce_annual_salary := None;
  proxies := Some [];
  ca_cert := None;
  verbose := Some 0%Z
|}.


(** Scenario A of the specification: the request body and an engine that
    answers with five rows of object columns, some of them with missing
    cells. *)
Definition scenario_a_body : pyval :=
  PDict [ ("search_term", PStr "software engineer");
          ("location", PStr "Austin, TX");
          ("results_wanted", PInt 5);
          ("site_name", PList [PStr "indeed"]) ].

Definition five_rows : DataFrame pyval := {|
  columns := ["title"; "company"; "min_amount"; "date_posted"];
  dtypes := [object; object; object; object];
  cells :=
    [ [PStr "Software Engineer"; PStr "Acme"; PFloat 90000; PStr "2025-01-10"];
      [PStr "Backend Engineer"; PNone; PFloat nan; PNaT];
      [PStr "Data Engineer"; PStr "Initech"; PFloat nan; PStr "2025-01-08"];
      [PStr "Site Reliability Engineer"; PStr "Globex"; PInt 0; PNA];
      [PStr ""; PStr "Hooli"; PBool false; PNaT] ]
|}.

Definition noon : datetime :=
  {| year := 2025; month := 1; day := 10; hour := 12; minute := 0;
     second := 0; microsecond := 0 |}.

Definition clock_of (n : nat) : float :=
  if Nat.eqb n 0 then 1000.5%float else 1002.75%float.

Definition scenario_a_world : World := {|
  jobspy_import := inr (fun _ _ => inr five_rows);
  clock_time := clock_of;
  clock_now := fun _ => noon
|}.

Definition scenario_a_request : JobSearchRequest := {|
  site_name := Some ["indeed"];
  search_term := Some "software engineer";
  google_search_term := None;
  location := Some "Austin, TX";
  results_wanted := Some 5%Z;
  hours_old := None;
  job_type := None;
  is_remote := None;
  distance := Some 50%Z;
  country_indeed := Some "USA";
  easy_apply := None;
  description_format := Some "markdown";
  linkedin_fetch_description := Some false;
  linkedin_company_ids := None;
  offset := None;
  enforce_annual_salary := None;
  proxies := None;
  ca_cert := None;
  verbose := Some 1%Z
|}.

Definition scenario_a_response : JobSearchResponse :=
  success_response scenario_a_world scenario_a_request initial_state five_rows.

Definition scenario_a_final_state : ServerState :=
  snd (post_search scenario_a_world scenario_a_body initial_state).

(** Scenario B: [results_wanted] above the ceiling. *)
Definition scenario_b_body : pyval :=
  PDict [ ("results_wanted", PInt 2000) ].

(** Scenario C: the engine is loaded, is invoked and raises. *)
Definition connection_reset : exn :=
  {| exn_class_of := OtherException; exn_str := "Connection reset by peer" |}.

Definition scenario_c_world : World := {|
  jobspy_import := inr (fun _ _ => inl connection_reset);
  clock_time := clock_of;
  clock_now := fun _ => noon
|}.

(** A deployment without the engine: the import statement raises. *)
Definition no_module_jobspy : exn :=
  {| exn_class_of := ImportError; exn_str := "No module named 'jobspy'" |}.

Definition engine_missing_world : World := {|
  jobspy_import := inl no_module_jobspy;
  clock_time := clock_of;
  clock_now := fun _ => noon
|}.

(** An engine that is loaded and, once invoked, fails on an import of its
    own. *)
Definition no_module_bs4 : exn :=
  {| exn_class_of := ImportError; exn_str := "No module named 'bs4'" |}.

Definition late_import_world : World := {|
  jobspy_import := inr (fun _ _ => inl no_module_bs4);
  clock_time := clock_of;
  clock_now := fun _ => noon
|}.

(** Request bodies whose [site_name] is empty or names an unknown site. *)
Definition empty_sites_body : pyval :=
  PDict [ ("site_name", PList []) ].

Definition empty_sites_request : JobSearchRequest := {|
  site_name := Some [];
  search_term := None;
  google_search_term := None;
  location := None;
  results_wanted := Some 20%Z;
  hours_old := None;
  job_type := None;
  is_remote := None;
  distance := Some 50%Z;
  country_indeed := Some "USA";
  easy_apply := None;
  description_format := Some "markdown";
  linkedin_fetch_description := Some false;
  linkedin_company_ids := None;
  offset := None;
  enforce_annual_salary := None;
  proxies := None;
  ca_cert := None;
  verbose := Some 1%Z
|}.

Definition unknown_site_body : pyval :=
  PDict [ ("site_name", PList [PStr "monster"]) ].

Definition unknown_site_request : JobSearchRequest := {|
  site_name := Some ["monster"];
  search_term := None;
  google_search_term := None;
  location := None;
  results_wanted := Some 20%Z;
  hours_old := None;
  job_type := None;
  is_remote := None;
  distance := Some 50%Z;
  country_indeed := Some "USA";
  easy_apply := None;
  description_format := Some "markdown";
  linkedin_fetch_description := Some false;
  linkedin_company_ids := None;
  offset := None;
  enforce_annual_salary := None;
  proxies := None;
  ca_cert := None;
  verbose := Some 1%Z
|}.

(** [sub in s] *)
Fixpoint contains (sub s : string) : bool :=
  if String.prefix sub s then true
  else match s with
       | EmptyString => false
       | String _ s' => contains sub s'
       end.


(** The entries that the comprehension of [clean_search_params] keeps. *)
Definition not_none_entry (kv : string * pyval) : bool :=
  negb (is_none (snd kv)).

(** A body with a key that names no field, and the same body without it. *)
Definition body_with_unknown_key : dict :=
  [ ("search_term", PStr "nurse"); ("page", PInt 3); ("verbose", PInt 0) ].

Definition body_without_unknown_key : dict :=
  [ ("search_term", PStr "nurse"); ("verbose", PInt 0) ].

(** A body that sets a defaulted field to [null]. *)
Definition null_results_wanted_body : dict :=
  [ ("results_wanted", PNone); ("search_term", PStr "nurse") ].

(** A body whose string and integer fields fall outside what their
    descriptions announce. *)
Definition off_description_body : dict :=
  [ ("job_type", PStr "gig"); ("description_format", PStr "pdf");
    ("distance", PInt (-5)); ("hours_old", PInt (-1)); ("offset", PInt (-25)) ].

(** An engine that finds nothing: a frame with columns and no row. *)
Definition no_rows : DataFrame pyval :=
  {| columns := ["title"; "company"];
     dtypes := [object; object];
     cells := [] |}.

Definition no_rows_world : World := {|
  jobspy_import := inr (fun _ _ => inr no_rows);
  clock_time := clock_of;
  clock_now := fun _ => noon
|}.

(** The log record that each [except] clause writes. *)
Definition error_record (e : exn) : log_record :=
  match exn_class_of e with
  | ImportError => ErrorImport e
  | OtherException => ErrorSearch e
  end.

(** An error located at [at_loc] or at one item of the list at [at_loc]. *)
Definition located_at (at_loc : list loc_item) (e : validation_error)
  : Prop :=
  loc e = at_loc \/ exists i, loc e = at_loc ++ [LIndex i].


(** A frame with two columns of the same label, as
    [DataFrame([[10, nan, 30]], columns=["salary", "title", "salary"])]
    builds it. *)
Definition repeated_label_frame : DataFrame pyval :=
  {| columns := ["salary"; "title"; "salary"];
     dtypes := [int64; float64; int64];
     cells := [ [PInt 10; PFloat nan; PInt 30] ] |}.

(** A frame as a scraper returns it: titles in an object column, amounts
    in a float64 column, posting times in a datetime64 column, and a
    missing cell in each. *)
Definition typed_frame : DataFrame pyval :=
  {| columns := ["title"; "min_amount"; "date_posted"];
     dtypes := [object; float64; datetime64];
     cells :=
       [ [PStr "Backend Engineer"; PFloat nan; PNaT];
         [PNone; PFloat 90000; PTimestamp 1736467200000000000] ] |}.


(** A body with three faults: two values out of range and an item of the
    wrong type. *)
Definition three_errors_body : dict :=
  [ ("results_wanted", PInt 2000); ("verbose", PInt 3);
    ("proxies", PList [PStr "localhost"; PInt 8080]) ].

(** * Properties *)

(** ** Dictionary laws *)

Lemma dict_get_set (d : dict) (k k' : string) (v : pyval) :
  dict_get (dict_set k v d) k' =
  if String.eqb k k' then Some v else dict_get d k'.
Proof.
  induction d as [|[k0 v0] d IH]; simpl.
  - reflexivity.
  - destruct (String.eqb k0 k) eqn:E0; simpl.
    + apply String.eqb_eq in E0; subst k0.
      destruct (String.eqb k k'); reflexivity.
    + destruct (String.eqb k0 k') eqn:E1.
      * apply String.eqb_eq in E1; subst k0. rewrite String.eqb_sym, E0.
        reflexivity.
      * exact IH.
Qed.

Lemma dict_get_not_in (d : dict) (k : string) :
  ~ In k (keys d) -> dict_get d k = None.
Proof.
  induction d as [|[k0 v0] d IH]; simpl; intros H.
  - reflexivity.
  - destruct (String.eqb k0 k) eqn:E.
    + apply String.eqb_eq in E. tauto.
    + apply IH. tauto.
Qed.

Lemma dict_get_in (d : dict) (k : string) (v : pyval) :
  dict_get d k = Some v -> In (k, v) d.
Proof.
  induction d as [|[k0 v0] d IH]; simpl; intros H.
  - discriminate.
  - destruct (String.eqb k0 k) eqn:E.
    + apply String.eqb_eq in E. injection H as ->. subst. now left.
    + right. now apply IH.
Qed.

(** What the comprehension leaves under each key, whatever the
    accumulator it starts from. *)
Lemma clean_fold_get (params out : dict) (k : string) :
  NoDup (keys params) ->
  dict_get
    (fold_left
       (fun out kv =>
          if is_none (snd kv) then out else dict_set (fst kv) (snd kv) out)
       params out) k =
  match dict_get params k with
  | Some v => if is_none v then dict_get out k else Some v
  | None => dict_get out k
  end.
Proof.
  revert out. induction params as [|[k0 v0] params IH]; simpl; intros out ND.
  - reflexivity.
  - inversion ND as [|? ? Hnin ND']; subst.
    rewrite (IH _ ND').
    destruct (String.eqb k0 k) eqn:E.
    + apply String.eqb_eq in E; subst k0.
      rewrite (dict_get_not_in _ _ Hnin).
      destruct (is_none v0); [reflexivity|].
      rewrite dict_get_set, String.eqb_refl. reflexivity.
    + destruct (is_none v0).
      * reflexivity.
      * rewrite dict_get_set, E. reflexivity.
Qed.

Lemma clean_search_params_get (params : dict) (k : string) :
  NoDup (keys params) ->
  dict_get (clean_search_params params) k =
  match dict_get params k with
  | Some v => if is_none v then None else Some v
  | None => None
  end.
Proof.
  intros ND. unfold clean_search_params.
  rewrite (clean_fold_get _ [] k ND). simpl.
  destruct (dict_get params k) as [v|]; [destruct (is_none v)|]; reflexivity.
Qed.

Lemma model_dump_keys (r : JobSearchRequest) : keys (model_dump r) = field_names.
Proof. reflexivity. Qed.

Lemma field_names_NoDup : NoDup field_names.
Proof.
  unfold field_names.
  repeat (constructor; [simpl; intros H; repeat (destruct H as [H|H]; [discriminate H|]); exact H|]).
  constructor.
Qed.

Lemma is_none_false (v : pyval) : v <> PNone -> is_none v = false.
Proof. destruct v; simpl; congruence. Qed.

Lemma dict_get_some_in_keys (d : dict) (k : string) (v : pyval) :
  dict_get d k = Some v -> In k (keys d).
Proof.
  intros H. apply dict_get_in in H.
  unfold keys. change k with (fst (k, v)). now apply in_map.
Qed.

Lemma dict_get_none_iff (d : dict) (k : string) :
  dict_get d k = None <-> ~ In k (keys d).
Proof.
  split; [|apply dict_get_not_in].
  induction d as [|[k0 v0] d IH]; simpl; intros H.
  - tauto.
  - destruct (String.eqb k0 k) eqn:E; [discriminate|].
    apply String.eqb_neq in E. intros [->|Hin]; [congruence|].
    now apply IH.
Qed.

(** ** The parameter normaliser *)

(** C1. For every request the validated model can hold, the normalised
    parameters have a key exactly when [model_dump] gives that key a value
    other than [None]: a key whose value is absent never appears, and a key
    whose value is present keeps its value, in particular an explicit [0],
    [false] or empty list. *)
Theorem C1_normalizer_drops_exactly_absent (r : JobSearchRequest) (k : string) :
  let source := model_dump r in
  let out := clean_search_params source in
  (dict_get source k = Some PNone -> ~ In k (keys out))
  /\ (In k (keys out) -> exists v, dict_get source k = Some v /\ v <> PNone)
  /\ (forall v, dict_get source k = Some v -> v <> PNone ->
        dict_get out k = Some v)
  /\ (forall v, dict_get source k = Some v ->
        v = PInt 0 \/ v = PBool false \/ v = PList [] ->
        dict_get out k = Some v).
Proof.
  intros source out.
  assert (ND : NoDup (keys source)).
  { unfold source. rewrite model_dump_keys. exact field_names_NoDup. }
  pose proof (clean_search_params_get source k ND) as G. fold out in G.
  assert (keep : forall v, dict_get source k = Some v -> v <> PNone ->
                           dict_get out k = Some v).
  { intros v Hv Hn. rewrite G, Hv, (is_none_false v Hn). reflexivity. }
  repeat split.
  - intros Hs. apply dict_get_none_iff. rewrite G, Hs. reflexivity.
  - intros Hin.
    destruct (dict_get out k) as [v|] eqn:Ho.
    + rewrite G in Ho. destruct (dict_get source k) as [v'|]; [|discriminate].
      exists v'. split; [reflexivity|].
      intros ->. simpl in Ho. discriminate.
    + apply dict_get_none_iff in Ho. contradiction.
  - exact keep.
  - intros v Hv Hfalsy. apply keep; [exact Hv|].
    destruct Hfalsy as [->|[->| ->]]; discriminate.
Qed.

(** The explicit [0] of [distance], the explicit [false] of [is_remote] and
    the empty [proxies] of [falsy_request] survive; its unset [hours_old]
    does not. *)
Lemma C1_normalizer_witness :
  let out := clean_search_params (model_dump falsy_request) in
  dict_get out "distance" = Some (PInt 0)
  /\ dict_get out "is_remote" = Some (PBool false)
  /\ dict_get out "proxies" = Some (PList [])
  /\ ~ In "hours_old" (keys out).
Proof.
  intros out.
  destruct (C1_normalizer_drops_exactly_absent falsy_request "distance")
    as (_ & _ & _ & Hd).
  destruct (C1_normalizer_drops_exactly_absent falsy_request "is_remote")
    as (_ & _ & _ & Hr).
  destruct (C1_normalizer_drops_exactly_absent falsy_request "proxies")
    as (_ & _ & _ & Hp).
  destruct (C1_normalizer_drops_exactly_absent falsy_request "hours_old")
    as (Hh & _).
  split; [|split; [|split]].
  - apply Hd; [reflexivity | now left].
  - apply Hr; [reflexivity | now right; left].
  - apply Hp; [reflexivity | now right; right].
  - apply Hh. reflexivity.
Defined.

(** ** The parameter model *)

Lemma field_missing {T : Type} (inner : validator T) (default : option T)
  (name : string) (b : dict) :
  dict_get b name = None -> field inner default name b = inr default.
Proof. intros Hb. unfold field. now rewrite Hb. Qed.

Lemma field_null {T : Type} (inner : validator T) (default : option T)
  (name : string) (b : dict) :
  dict_get b name = Some PNone -> field inner default name b = inr None.
Proof. intros Hb. unfold field. now rewrite Hb. Qed.

Lemma field_given {T : Type} (inner : validator T) (default : option T)
  (name : string) (b : dict) (v : pyval) :
  dict_get b name = Some v -> v <> PNone ->
  field inner default name b =
  match inner [LKey "body"; LKey name] v with
  | inl e => inl e
  | inr x => inr (Some x)
  end.
Proof.
  intros Hb Hv. unfold field. rewrite Hb.
  destruct v; try reflexivity. congruence.
Qed.

(** A value that converts to an integer outside the bounds is refused. *)
Lemma bounded_int_out_of_range `{Coercions} (ge le : Z) (at_loc : list loc_item)
  (v : pyval) (n : Z) :
  as_int v = inr n -> (n < ge \/ le < n)%Z ->
  exists ty, bounded_int ge le at_loc v = inl [ {| loc := at_loc; err_type := ty |} ].
Proof.
  intros Hv Hn. unfold bounded_int, scalar. rewrite Hv.
  destruct (n <? ge)%Z eqn:Eg; [eauto|].
  destruct (le <? n)%Z eqn:El; [eauto|].
  apply Z.ltb_ge in Eg, El. lia.
Qed.

(** A value inside the bounds is accepted as it converts. *)
Lemma bounded_int_in_range `{Coercions} (ge le : Z) (at_loc : list loc_item)
  (v : pyval) (n : Z) :
  as_int v = inr n -> (ge <= n <= le)%Z ->
  bounded_int ge le at_loc v = inr n.
Proof.
  intros Hv [Hg Hl]. unfold bounded_int, scalar. rewrite Hv.
  apply Z.ltb_ge in Hg, Hl. now rewrite Hg, Hl.
Qed.

Lemma bounded_int_inr `{Coercions} (ge le : Z) (at_loc : list loc_item)
  (v : pyval) (n : Z) :
  bounded_int ge le at_loc v = inr n -> (ge <= n <= le)%Z.
Proof.
  unfold bounded_int. destruct (scalar as_int at_loc v) as [e|m]; [discriminate|].
  destruct (m <? ge)%Z eqn:Eg; [discriminate|].
  destruct (le <? m)%Z eqn:El; [discriminate|].
  intros [= <-]. apply Z.ltb_ge in Eg, El. lia.
Qed.

Lemma field_bounded_int_value `{Coercions} (ge le d : Z) (name : string)
  (b : dict) (n : Z) :
  (ge <= d <= le)%Z ->
  value_of (field (bounded_int ge le) (Some d) name b) = Some n ->
  (ge <= n <= le)%Z.
Proof.
  intros Hd. unfold field.
  destruct (dict_get b name) as [v|]; [|simpl; intros [= <-]; exact Hd].
  assert (Hv : forall u,
             value_of match bounded_int ge le [LKey "body"; LKey name] u with
                      | inl e => inl e
                      | inr x => inr (Some x)
                      end = Some n -> (ge <= n <= le)%Z).
  { intros u.
    destruct (bounded_int ge le [LKey "body"; LKey name] u) as [e|x] eqn:E;
      simpl; [discriminate|].
    intros [= <-]. exact (bounded_int_inr ge le _ u x E). }
  destruct v; try apply Hv. simpl. discriminate.
Qed.

Lemma scalar_inr {T : Type} (conv : pyval -> string + T)
  (at_loc : list loc_item) (v : pyval) (x : T) :
  scalar conv at_loc v = inr x <-> conv v = inr x.
Proof.
  unfold scalar. destruct (conv v); split; congruence.
Qed.

Lemma scalar_inl_nonempty {T : Type} (conv : pyval -> string + T)
  (at_loc : list loc_item) (v : pyval) :
  scalar conv at_loc v <> inl [].
Proof. unfold scalar. destruct (conv v); discriminate. Qed.

(** The items of a list pass exactly when each of them converts. *)
Lemma list_items_scalar_ok {T : Type} (conv : pyval -> string + T)
  (at_loc : list loc_item) (items : list pyval) (xs : list T) :
  Forall2 (fun v x => conv v = inr x) items xs ->
  forall i, list_items (scalar conv) at_loc i items = ([], xs).
Proof.
  induction 1 as [|v x items xs Hv _ IH]; intros i; simpl.
  - reflexivity.
  - rewrite IH. apply (scalar_inr conv (at_loc ++ [LIndex i])) in Hv.
    now rewrite Hv.
Qed.

Lemma list_items_scalar_inv {T : Type} (conv : pyval -> string + T)
  (at_loc : list loc_item) (items : list pyval) :
  forall i xs,
    list_items (scalar conv) at_loc i items = ([], xs) ->
    Forall2 (fun v x => conv v = inr x) items xs.
Proof.
  induction items as [|v items IH]; intros i xs; simpl.
  - intros [= <-]. constructor.
  - destruct (list_items (scalar conv) at_loc (S i) items) as [errs xs'] eqn:E.
    destruct (scalar conv (at_loc ++ [LIndex i]) v) as [e|x] eqn:Ev.
    + intros [= He _]. apply app_eq_nil in He. destruct He as [-> _].
      now apply scalar_inl_nonempty in Ev.
    + intros [= -> <-]. constructor.
      * now apply scalar_inr in Ev.
      * now apply (IH (S i)).
Qed.

Lemma list_of_inl_nonempty {T : Type} (item : validator T)
  (at_loc : list loc_item) (v : pyval) :
  list_of item at_loc v <> inl [].
Proof.
  unfold list_of. destruct v; try discriminate.
  destruct (list_items item at_loc 0 l) as [[|e errs] xs]; discriminate.
Qed.

(** Validation answers [Valid] exactly when no field reports an error. *)
Lemma validate_request_valid `{Coercions} (b : dict) (r : JobSearchRequest) :
  validate_request (PDict b) = Valid r <->
  request_errors b = [] /\ r = request_model b.
Proof.
  unfold validate_request.
  destruct (request_errors b) as [|e errs]; split.
  - intros [= <-]. now split.
  - intros [_ ->]. reflexivity.
  - discriminate.
  - intros [? _]. discriminate.
Qed.

Lemma validate_request_invalid `{Coercions} (b : dict) (e : validation_error) :
  In e (request_errors b) ->
  validate_request (PDict b) = Invalid (request_errors b).
Proof.
  unfold validate_request.
  destruct (request_errors b) as [|e' errs]; [contradiction | reflexivity].
Qed.

(** The numeric invariants of an accepted request. *)
Lemma validate_request_bounds `{Coercions} (b : dict) (r : JobSearchRequest) :
  validate_request (PDict b) = Valid r ->
  (forall n, results_wanted r = Some n -> (1 <= n <= 1000)%Z)
  /\ (forall n, verbose r = Some n -> (0 <= n <= 2)%Z).
Proof.
  intros Hr. apply validate_request_valid in Hr. destruct Hr as [_ ->].
  split; intros n; simpl.
  - apply field_bounded_int_value. lia.
  - apply field_bounded_int_value. lia.
Qed.

(** A body that names no field validates to the defaults. *)
Lemma request_model_defaults `{Coercions} (b : dict) :
  (forall k, In k field_names -> dict_get b k = None) ->
  request_errors b = [] /\ request_model b = default_request.
Proof.
  intros Hb.
  unfold request_errors, request_model,
    f_site_name, f_search_term, f_google_search_term, f_location,
    f_results_wanted, f_hours_old, f_job_type, f_is_remote, f_distance,
    f_country_indeed, f_easy_apply, f_description_format,
    f_linkedin_fetch_description, f_linkedin_company_ids, f_offset,
    f_enforce_annual_salary, f_proxies, f_ca_cert, f_verbose.
  rewrite !field_missing by (apply Hb; simpl; tauto).
  split; reflexivity.
Qed.

(** C2. A request body that sets none of the fields validates, and its
    normalised parameters are exactly the seven declared defaults:
    [site_name], [results_wanted], [distance], [country_indeed],
    [description_format], [linkedin_fetch_description] and [verbose], with
    no other key. *)
Theorem C2_unset_request_normalizes_to_defaults `{Coercions} (b : dict) :
  (forall k, In k field_names -> dict_get b k = None) ->
  exists r,
    validate_request (PDict b) = Valid r
    /\ clean_search_params (model_dump r) =
       [ ("site_name", PList [PStr "indeed"; PStr "linkedin"; PStr "glassdoor"]);
         ("results_wanted", PInt 20);
         ("distance", PInt 50);
         ("country_indeed", PStr "USA");
         ("description_format", PStr "markdown");
         ("linkedin_fetch_description", PBool false);
         ("verbose", PInt 1) ].
Proof.
  intros Hb. destruct (request_model_defaults b Hb) as [He Hm].
  exists default_request. split.
  - apply validate_request_valid. now rewrite He, Hm.
  - reflexivity.
Qed.

(** The empty JSON object [{}] under the exact-type conversions. *)
Lemma C2_unset_request_witness :
  exists r,
    validate_request (PDict []) = Valid r
    /\ clean_search_params (model_dump r) =
       [ ("site_name", PList [PStr "indeed"; PStr "linkedin"; PStr "glassdoor"]);
         ("results_wanted", PInt 20);
         ("distance", PInt 50);
         ("country_indeed", PStr "USA");
         ("description_format", PStr "markdown");
         ("linkedin_fetch_description", PBool false);
         ("verbose", PInt 1) ].
Proof.
  apply (C2_unset_request_normalizes_to_defaults (H := exact_types) []).
  intros k _. reflexivity.
Defined.

Lemma in_request_errors `{Coercions} (b : dict) (e : validation_error) :
  In e (errors_of (f_results_wanted b)) \/ In e (errors_of (f_verbose b)) ->
  In e (request_errors b).
Proof.
  unfold request_errors. rewrite !in_app_iff. tauto.
Qed.

(** C3. A body whose [results_wanted] converts to an integer outside
    [1, 1000], or whose [verbose] converts to an integer outside [0, 2], is
    refused: validation reports an error located at that field, the answer
    is the 422 response carrying the errors, and the process state is left
    as it was, so the engine is not invoked. *)
Theorem C3_out_of_range_rejected `{Coercions} (w : World) (s : ServerState)
  (b : dict) (name : string) (lo hi : Z) (v : pyval) (n : Z) :
  (name = "results_wanted" /\ lo = 1%Z /\ hi = 1000%Z)
  \/ (name = "verbose" /\ lo = 0%Z /\ hi = 2%Z) ->
  dict_get b name = Some v -> v <> PNone ->
  as_int v = inr n -> (n < lo \/ hi < n)%Z ->
  exists errors,
    validate_request (PDict b) = Invalid errors
    /\ (exists e, In e errors /\ loc e = [LKey "body"; LKey name])
    /\ post_search w (PDict b) s = (Unprocessable422 errors, s)
    /\ engine_calls (snd (post_search w (PDict b) s)) = engine_calls s.
Proof.
  intros Hname Hb Hv Hn Hout.
  destruct (bounded_int_out_of_range lo hi [LKey "body"; LKey name] v n Hn Hout)
    as [ty Hty].
  set (e := {| loc := [LKey "body"; LKey name]; err_type := ty |}) in *.
  assert (Hin : In e (request_errors b)).
  { apply in_request_errors.
    destruct Hname as [(-> & -> & ->)|(-> & -> & ->)]; [left|right].
    - unfold f_results_wanted. rewrite (field_given _ _ _ _ v Hb Hv), Hty.
      now left.
    - unfold f_verbose. rewrite (field_given _ _ _ _ v Hb Hv), Hty.
      now left. }
  pose proof (validate_request_invalid b e Hin) as Hinv.
  exists (request_errors b). split; [exact Hinv|]. split.
  - exists e. split; [exact Hin | reflexivity].
  - unfold post_search. rewrite Hinv. split; reflexivity.
Qed.

(** Scenario B: [results_wanted = 2000] with the engine of scenario A in
    place. *)
Lemma C3_scenario_b_witness :
  exists errors,
    validate_request scenario_b_body = Invalid errors
    /\ (exists e, In e errors /\ loc e = [LKey "body"; LKey "results_wanted"])
    /\ post_search scenario_a_world scenario_b_body initial_state
       = (Unprocessable422 errors, initial_state)
    /\ engine_calls
         (snd (post_search scenario_a_world scenario_b_body initial_state))
       = [].
Proof.
  apply (C3_out_of_range_rejected (H := exact_types) scenario_a_world
           initial_state [("results_wanted", PInt 2000)]
           "results_wanted" 1 1000 (PInt 2000) 2000).
  - left. repeat split.
  - reflexivity.
  - discriminate.
  - reflexivity.
  - right. lia.
Defined.

Lemma site_name_errors_nil `{Coercions} (b : dict) :
  request_errors b = [] -> errors_of (f_site_name b) = [].
Proof.
  unfold request_errors. intros He. now apply app_eq_nil in He.
Qed.

(** ** The search handler *)

Lemma search_jobs_import_raises (w : World) (request : JobSearchRequest)
  (s : ServerState) (e : exn) :
  jobspy_import w = inl e ->
  search_jobs w request s = search_jobs_except e s.
Proof.
  intros Hi. unfold search_jobs, search_jobs_try, bind, import_scrape_jobs.
  rewrite Hi. reflexivity.
Qed.

Lemma search_jobs_engine_raises (w : World) (request : JobSearchRequest)
  (s : ServerState) (scrape_jobs : engine) (e : exn) :
  jobspy_import w = inr scrape_jobs ->
  scrape_jobs (List.length (engine_calls s))
    (clean_search_params (model_dump request)) = inl e ->
  search_jobs w request s = search_jobs_except e (at_engine_call request s).
Proof.
  intros Hi He.
  unfold search_jobs, search_jobs_try, bind, import_scrape_jobs, call_engine.
  rewrite Hi. simpl. rewrite He. reflexivity.
Qed.

Lemma search_jobs_engine_returns (w : World) (request : JobSearchRequest)
  (s : ServerState) (scrape_jobs : engine) (df : DataFrame pyval) :
  jobspy_import w = inr scrape_jobs ->
  scrape_jobs (List.length (engine_calls s))
    (clean_search_params (model_dump request)) = inr df ->
  search_jobs w request s =
  (inr (inr (success_response w request s df)),
   {| clock_reads := S (S (clock_reads s));
      engine_calls :=
        engine_calls s ++ [clean_search_params (model_dump request)];
      log :=
        (log s ++ [InfoStarting (clean_search_params (model_dump request))])
        ++ [InfoFound (List.length (convert_dataframe_to_dict df))
              (execution_time (success_response w request s df))] |}).
Proof.
  intros Hi He.
  unfold search_jobs, search_jobs_try, bind, import_scrape_jobs, call_engine.
  rewrite Hi. simpl. rewrite He. reflexivity.
Qed.

(** What the [except] clauses answer, by the class of the exception. *)
Lemma search_jobs_except_answer (e : exn) (s : ServerState) :
  exists s',
    search_jobs_except e s =
    (inr (inl {| status_code := 500;
                 detail :=
                   match exn_class_of e with
                   | ImportError => "JobSpy library not available"
                   | OtherException => "Search failed: " ++ exn_str e
                   end |}), s')
    /\ engine_calls s' = engine_calls s
    /\ clock_reads s' = clock_reads s.
Proof.
  unfold search_jobs_except.
  destruct (exn_class_of e); eexists; (split; [reflexivity|]); split; reflexivity.
Qed.

Lemma search_jobs_outcome (w : World) (request : JobSearchRequest)
  (s : ServerState) : search_outcome w request s.
Proof.
  destruct (jobspy_import w) as [e|scrape_jobs] eqn:Hi.
  - eapply ImportRaises; [exact Hi|]. now apply search_jobs_import_raises.
  - destruct (scrape_jobs (List.length (engine_calls s))
                (clean_search_params (model_dump request))) as [e|df] eqn:Hc.
    + eapply EngineRaises; [exact Hi | exact Hc |].
      now apply search_jobs_engine_raises with (scrape_jobs := scrape_jobs).
    + eapply EngineReturns; [exact Hi | exact Hc | |].
      2: now apply search_jobs_engine_returns with (scrape_jobs := scrape_jobs).
      reflexivity.
Qed.

(** The calls recorded after one request. *)
Lemma post_search_engine_calls_eq `{Coercions} (w : World) (body : pyval)
  (s : ServerState) :
  engine_calls (snd (post_search w body s)) =
  match validate_request body, jobspy_import w with
  | Valid request, inr _ =>
      engine_calls s ++ [clean_search_params (model_dump request)]
  | _, _ => engine_calls s
  end.
Proof.
  unfold post_search.
  destruct (validate_request body) as [request|errors]; [|reflexivity].
  destruct (search_jobs_outcome w request s)
    as [e Hi Hrun | scrape_jobs e Hi _ Hrun | scrape_jobs df s1 Hi _ Hcalls Hrun];
    rewrite Hrun, Hi.
  - destruct (search_jobs_except_answer e s) as (s1 & -> & Hcalls & _).
    exact Hcalls.
  - destruct (search_jobs_except_answer e (at_engine_call request s))
      as (s1 & -> & Hcalls & _).
    exact Hcalls.
  - exact Hcalls.
Qed.

(** C4. Whenever [POST /search] answers with the envelope, the envelope
    has [success = true], [total_jobs] is the length of [jobs],
    [search_params] are the normalised parameters of the validated request
    (the very ones the engine was called with), and [message] is
    [Successfully found n jobs] for that same length [n]. *)
Theorem C4_success_envelope `{Coercions} (w : World) (body : pyval)
  (s s' : ServerState) (response : JobSearchResponse) :
  post_search w body s = (Ok200 response, s') ->
  success response = true
  /\ total_jobs response = Z.of_nat (List.length (jobs response))
  /\ (exists request,
        validate_request body = Valid request
        /\ search_params response = clean_search_params (model_dump request))
  /\ engine_calls s' = engine_calls s ++ [search_params response]
  /\ message response =
     ("Successfully found "
      ++ str_of_int (Z.of_nat (List.length (jobs response))) ++ " jobs")%string.
Proof.
  unfold post_search.
  destruct (validate_request body) as [request|errors] eqn:Hv; [|discriminate].
  destruct (search_jobs_outcome w request s)
    as [e _ Hrun | scrape_jobs e _ _ Hrun | scrape_jobs df s1 _ _ Hcalls Hrun];
    rewrite Hrun.
  - destruct (search_jobs_except_answer e s) as (s1 & -> & _). discriminate.
  - destruct (search_jobs_except_answer e (at_engine_call request s))
      as (s1 & -> & _). discriminate.
  - intros [= <- <-]. simpl.
    split; [reflexivity|]. split; [reflexivity|]. split.
    + exists request. split; reflexivity.
    + split; [exact Hcalls | reflexivity].
Qed.

(** Scenario A: five rows come back, so [total_jobs = 5] and the message
    is [Successfully found 5 jobs]. *)
Lemma scenario_a_envelope :
  total_jobs scenario_a_response = 5%Z
  /\ message scenario_a_response = "Successfully found 5 jobs"
  /\ dict_get (search_params scenario_a_response) "hours_old" = None
  /\ engine_calls scenario_a_final_state = [search_params scenario_a_response].
Proof. repeat split. Qed.

Lemma C4_scenario_a_witness :
  success scenario_a_response = true
  /\ total_jobs scenario_a_response
     = Z.of_nat (List.length (jobs scenario_a_response))
  /\ (exists request,
        validate_request scenario_a_body = Valid request
        /\ search_params scenario_a_response
           = clean_search_params (model_dump request))
  /\ engine_calls scenario_a_final_state
     = engine_calls initial_state ++ [search_params scenario_a_response]
  /\ message scenario_a_response =
     ("Successfully found "
      ++ str_of_int (Z.of_nat (List.length (jobs scenario_a_response)))
      ++ " jobs")%string.
Proof.
  apply (C4_success_envelope (H := exact_types) scenario_a_world
           scenario_a_body initial_state scenario_a_final_state
           scenario_a_response).
  vm_compute. reflexivity.
Defined.

(** C5, as the specification states it, fails: an engine that is loaded,
    is invoked and then raises an [ImportError] of its own is answered by
    the first [except] clause, with the fixed detail and without the
    message of the fault. *)
Lemma C5_counterexample_engine_raises_import_error :
  (exists scrape_jobs,
     jobspy_import late_import_world = inr scrape_jobs
     /\ scrape_jobs 0%nat (clean_search_params (model_dump default_request))
        = inl no_module_bs4)
  /\ engine_calls
       (snd (search_jobs late_import_world default_request initial_state))
     = [clean_search_params (model_dump default_request)]
  /\ fst (search_jobs late_import_world default_request initial_state)
     = inr (inl {| status_code := 500;
                   detail := "JobSpy library not available" |})
  /\ contains (exn_str no_module_bs4) "JobSpy library not available" = false.
Proof.
  split; [|split; [|split]].
  - eexists. split; reflexivity.
  - reflexivity.
  - reflexivity.
  - reflexivity.
Qed.

(** C5, amended. A failing search is answered by status 500 with a
    detail chosen by the class of the exception, whether the import
    statement or the invoked engine raised it: the fixed text
    [JobSpy library not available] for an [ImportError], and
    [Search failed: ] followed by the unchanged message of the fault for
    any other exception. When the import fails the engine is not invoked.
    The body of the error response has the key [detail] and nothing
    else: no [jobs] and no [total_jobs]. *)
Theorem C5_failure_responses (w : World) (request : JobSearchRequest)
  (s : ServerState) :
  let search_params := clean_search_params (model_dump request) in
  let detail_of (e : exn) :=
    match exn_class_of e with
    | ImportError => "JobSpy library not available"
    | OtherException => ("Search failed: " ++ exn_str e)%string
    end in
  (forall e,
     jobspy_import w = inl e ->
     exists s',
       search_jobs w request s
       = (inr (inl {| status_code := 500; detail := detail_of e |}), s')
       /\ engine_calls s' = engine_calls s)
  /\ (forall scrape_jobs e,
        jobspy_import w = inr scrape_jobs ->
        scrape_jobs (List.length (engine_calls s)) search_params = inl e ->
        exists s',
          search_jobs w request s
          = (inr (inl {| status_code := 500; detail := detail_of e |}), s')
          /\ engine_calls s' = engine_calls s ++ [search_params])
  /\ (forall h : HTTPException,
        search_body_json (HTTPError h) = [("detail", PStr (detail h))]
        /\ dict_get (search_body_json (HTTPError h)) "total_jobs" = None
        /\ dict_get (search_body_json (HTTPError h)) "jobs" = None).
Proof.
  intros search_params detail_of. split; [|split].
  - intros e Hi. rewrite (search_jobs_import_raises w request s e Hi).
    destruct (search_jobs_except_answer e s) as (s' & Hrun & Hcalls & _).
    exists s'. split; [exact Hrun | exact Hcalls].
  - intros scrape_jobs e Hi Hc.
    rewrite (search_jobs_engine_raises w request s scrape_jobs e Hi Hc).
    destruct (search_jobs_except_answer e (at_engine_call request s))
      as (s' & Hrun & Hcalls & _).
    exists s'. split; [exact Hrun|]. rewrite Hcalls. reflexivity.
  - intros h. split; [reflexivity|]. split; reflexivity.
Qed.

(** The deployment without the engine, and scenario C. *)
Lemma C5_failure_witness :
  (exists s',
     search_jobs engine_missing_world default_request initial_state
     = (inr (inl {| status_code := 500;
                    detail := "JobSpy library not available" |}), s')
     /\ engine_calls s' = [])
  /\ (exists s',
        search_jobs scenario_c_world default_request initial_state
        = (inr (inl {| status_code := 500;
                       detail := "Search failed: Connection reset by peer" |}),
           s')
        /\ engine_calls s'
           = [clean_search_params (model_dump default_request)]).
Proof.
  split.
  - destruct (C5_failure_responses engine_missing_world default_request
                initial_state) as (Himport & _).
    exact (Himport no_module_jobspy eq_refl).
  - destruct (C5_failure_responses scenario_c_world default_request
                initial_state) as (_ & Hengine & _).
    exact (Hengine (fun _ _ => inl connection_reset) connection_reset
             eq_refl eq_refl).
Defined.

(** C10. The only envelope that [search_jobs] builds has
    [success = true]. Every other run of the handler ends by raising an
    [HTTPException] of status 500, whose body holds [detail] and nothing
    else; no run builds an envelope with [success = false], and no other
    exception leaves the handler. *)
Theorem C10_no_unsuccessful_envelope (w : World) (request : JobSearchRequest)
  (s : ServerState) :
  match fst (search_jobs w request s) with
  | inr (inr response) => success response = true
  | inr (inl h) =>
      status_code h = 500%Z
      /\ search_body_json (HTTPError h) = [("detail", PStr (detail h))]
  | inl _ => False
  end.
Proof.
  destruct (search_jobs_outcome w request s)
    as [e _ Hrun | scrape_jobs e _ _ Hrun | scrape_jobs df s1 _ _ _ Hrun];
    rewrite Hrun.
  - destruct (search_jobs_except_answer e s) as (s1 & -> & _). simpl.
    split; reflexivity.
  - destruct (search_jobs_except_answer e (at_engine_call request s))
      as (s1 & -> & _). simpl.
    split; reflexivity.
  - reflexivity.
Qed.

(** ** The site list on its way to the engine *)

Lemma clean_site_name (r : JobSearchRequest) (sites : list string) :
  site_name r = Some sites ->
  dict_get (clean_search_params (model_dump r)) "site_name"
  = Some (PList (map PStr sites)).
Proof.
  intros Hs.
  rewrite clean_search_params_get
    by (rewrite model_dump_keys; exact field_names_NoDup).
  simpl. rewrite Hs. reflexivity.
Qed.

(** C7, as the specification states it, fails: the parameter model
    accepts an empty [site_name] list and a site identifier that is not
    among the recognised ones, and the engine is then invoked with them. *)
Lemma C7_counterexample_empty_or_unknown_site :
  (exists r, validate_request empty_sites_body = Valid r
             /\ site_name r = Some [])
  /\ (exists r, validate_request unknown_site_body = Valid r
                /\ site_name r = Some ["monster"]
                /\ is_recognized_site "monster" = false)
  /\ (exists params,
        engine_calls
          (snd (post_search scenario_a_world empty_sites_body initial_state))
        = [params]
        /\ dict_get params "site_name" = Some (PList []))
  /\ (exists params,
        engine_calls
          (snd (post_search scenario_a_world unknown_site_body initial_state))
        = [params]
        /\ dict_get params "site_name" = Some (PList [PStr "monster"])).
Proof.
  split; [|split; [|split]].
  - eexists. split; reflexivity.
  - eexists. split; [reflexivity|]. split; reflexivity.
  - eexists. split; reflexivity.
  - eexists. split; reflexivity.
Qed.

(** C7, amended. In every accepted request [site_name] is the default
    when the body has no such key, [None] when the body gives [null], and
    otherwise the list of the strings that the body gives, whatever its
    length and whatever its members; a [site_name] that is a list of
    strings never makes the field fail; and whenever the engine can be
    imported, an accepted request makes one call to the engine, whose
    [site_name] is that very list, be it empty or made of unrecognised
    identifiers. *)
Theorem C7_site_name_is_any_list_of_strings `{Coercions} (b : dict) :
  (forall r,
     validate_request (PDict b) = Valid r ->
     match dict_get b "site_name" with
     | None => site_name r = Some ["indeed"; "linkedin"; "glassdoor"]
     | Some PNone => site_name r = None
     | Some (PList items) =>
         exists sites,
           site_name r = Some sites
           /\ Forall2 (fun v s => as_str v = inr s) items sites
     | Some _ => False
     end)
  /\ (forall items sites,
        dict_get b "site_name" = Some (PList items) ->
        Forall2 (fun v s => as_str v = inr s) items sites ->
        f_site_name b = inr (Some sites))
  /\ (forall r sites w s scrape_jobs,
        validate_request (PDict b) = Valid r ->
        site_name r = Some sites ->
        jobspy_import w = inr scrape_jobs ->
        exists params,
          engine_calls (snd (post_search w (PDict b) s))
          = engine_calls s ++ [params]
          /\ dict_get params "site_name" = Some (PList (map PStr sites))).
Proof.
  split; [|split].
  - intros r Hr. apply validate_request_valid in Hr. destruct Hr as [He ->].
    apply site_name_errors_nil in He. simpl.
    unfold f_site_name, field in *.
    destruct (dict_get b "site_name") as [v|]; [|reflexivity].
    destruct v; try reflexivity; try (simpl in He; discriminate He).
    simpl in *.
    destruct (list_items (scalar as_str) [LKey "body"; LKey "site_name"] 0 l)
      as [[|e errs] xs] eqn:El.
    + exists xs. split; [reflexivity|].
      now apply list_items_scalar_inv in El.
    + simpl in He. discriminate He.
  - intros items sites Hb Hall.
    unfold f_site_name. rewrite (field_given _ _ _ _ (PList items) Hb);
      [|discriminate].
    unfold list_of.
    now rewrite (list_items_scalar_ok as_str _ items sites Hall 0).
  - intros r sites w s scrape_jobs Hv Hs Hi.
    rewrite post_search_engine_calls_eq, Hv, Hi.
    exists (clean_search_params (model_dump r)).
    split; [reflexivity | now apply clean_site_name].
Qed.

(** The accepted bodies [{"site_name": []}] and
    [{"site_name": ["monster"]}], the second one on its way to the engine
    of scenario A. *)
Lemma C7_site_name_witness :
  (exists sites,
     site_name empty_sites_request = Some sites
     /\ Forall2 (fun v s => as_str v = inr s) [] sites)
  /\ f_site_name [("site_name", PList [])] = inr (Some [])
  /\ (exists params,
        engine_calls
          (snd (post_search scenario_a_world unknown_site_body initial_state))
        = engine_calls initial_state ++ [params]
        /\ dict_get params "site_name" = Some (PList (map PStr ["monster"]))).
Proof.
  destruct (C7_site_name_is_any_list_of_strings (H := exact_types)
              [("site_name", PList [])]) as (Hvalid & Hfield & _).
  destruct (C7_site_name_is_any_list_of_strings (H := exact_types)
              [("site_name", PList [PStr "monster"])]) as (_ & _ & Hengine).
  split; [|split].
  - exact (Hvalid empty_sites_request eq_refl).
  - apply (Hfield [] []); [reflexivity | constructor].
  - exact (Hengine unknown_site_request ["monster"] scenario_a_world
             initial_state (fun _ _ => inr five_rows)
             eq_refl eq_refl eq_refl).
Defined.

(** ** Tabular-to-record conversion *)

Lemma where_row_notnull (dts : list dtype) (row : list pyval) :
  where_row dts row (map notnull_scalar row) PNone = normalized_row dts row.
Proof.
  revert dts. induction row as [|c row IH]; intros dts; simpl.
  - reflexivity.
  - now rewrite IH.
Qed.

Lemma where_rows_notnull (dts : list dtype) (rows : list (list pyval)) :
  where_rows dts rows (map (map notnull_scalar) rows) PNone
  = map (normalized_row dts) rows.
Proof.
  induction rows as [|r rows IH]; simpl.
  - reflexivity.
  - now rewrite where_row_notnull, IH.
Qed.

(** The conversion, row by row. *)
Lemma convert_dataframe_to_dict_rows (df : DataFrame pyval) :
  convert_dataframe_to_dict df =
  map (fun row =>
         dict_of_pairs (combine (columns df) (normalized_row (dtypes df) row)))
    (cells df).
Proof.
  unfold convert_dataframe_to_dict, to_dict_records, df_where, pd_notnull.
  simpl. rewrite where_rows_notnull, map_map. reflexivity.
Qed.

Lemma normalized_row_length (dts : list dtype) (row : list pyval) :
  List.length (normalized_row dts row) = List.length row.
Proof.
  revert dts. induction row as [|c row IH]; intros dts; simpl.
  - reflexivity.
  - now rewrite IH.
Qed.

Lemma normalized_row_nth (row : list pyval) :
  forall (dts : list dtype) (j : nat) (dt : dtype) (c : pyval),
    nth_error dts j = Some dt -> nth_error row j = Some c ->
    nth_error (normalized_row dts row) j = Some (normalized_cell dt c).
Proof.
  induction row as [|c0 row IH]; intros dts j dt c Hdt Hc.
  - destruct j; discriminate.
  - destruct dts as [|dt0 dts]; [destruct j; discriminate|].
    destruct j as [|j]; simpl in *.
    + congruence.
    + now apply IH.
Qed.

(** A cell that carries a value stays as it is, in a column of any dtype. *)
Lemma normalized_cell_present (dt : dtype) (c : pyval) :
  present_value c = true -> normalized_cell dt c = c.
Proof.
  unfold normalized_cell, where_cell.
  destruct c; simpl; try discriminate; try reflexivity.
  intros ->. reflexivity.
Qed.

(** A missing marker becomes the missing value of the dtype of its
    column, which is [None] in an object column only. *)
Lemma normalized_cell_missing (dt : dtype) (c : pyval) :
  missing_marker c = true ->
  normalized_cell dt c =
  match dt with
  | object => PNone
  | datetime64 => PNaT
  | float64 | int64 | bool_dtype => PFloat nan
  end.
Proof.
  unfold normalized_cell, where_cell.
  destruct c; simpl; try discriminate; try reflexivity.
  intros ->. reflexivity.
Qed.

Lemma dict_set_in (k0 : string) (v0 : pyval) (d : dict) (kv : string * pyval) :
  In kv (dict_set k0 v0 d) -> snd kv = v0 \/ In kv d.
Proof.
  induction d as [|[k1 v1] d IH]; simpl.
  - intros [<-|[]]. now left.
  - destruct (String.eqb k1 k0); simpl.
    + intros [<-|Hin]; [now left | right; now right].
    + intros [<-|Hin]; [right; now left|].
      destruct (IH Hin) as [Hv|Hd]; [now left | right; now right].
Qed.

(** [dict(pairs)] holds no value that the pairs do not hold. *)
Lemma dict_of_pairs_values (pairs : list (string * pyval)) :
  forall (acc : dict) (kv : string * pyval),
    In kv (fold_left (fun out p => dict_set (fst p) (snd p) out) pairs acc) ->
    In (snd kv) (map snd pairs) \/ In kv acc.
Proof.
  induction pairs as [|p pairs IH]; simpl; intros acc kv Hin.
  - now right.
  - destruct (IH _ _ Hin) as [Hp|Hacc].
    + left. now right.
    + destruct (dict_set_in _ _ _ _ Hacc) as [Hv|Hd].
      * left. left. now symmetry.
      * now right.
Qed.

(** With distinct keys, [dict(pairs)] answers as the pairs do. *)
Lemma dict_of_pairs_fold_get (pairs : list (string * pyval)) (k : string) :
  NoDup (keys pairs) ->
  forall acc,
    dict_get (fold_left (fun out p => dict_set (fst p) (snd p) out) pairs acc) k
    = match dict_get pairs k with
      | Some v => Some v
      | None => dict_get acc k
      end.
Proof.
  induction pairs as [|[k0 v0] pairs IH]; simpl; intros ND acc.
  - reflexivity.
  - inversion ND as [|? ? Hnin ND']; subst.
    rewrite (IH ND'), dict_get_set.
    destruct (String.eqb k0 k) eqn:E.
    + apply String.eqb_eq in E; subst k0.
      now rewrite (dict_get_not_in _ _ Hnin).
    + reflexivity.
Qed.

Lemma dict_get_of_in (d : dict) (k : string) (v : pyval) :
  NoDup (keys d) -> In (k, v) d -> dict_get d k = Some v.
Proof.
  induction d as [|[k0 v0] d IH]; simpl; intros ND Hin.
  - contradiction.
  - inversion ND as [|? ? Hnin ND']; subst.
    destruct Hin as [[= -> ->]|Hin].
    + now rewrite String.eqb_refl.
    + destruct (String.eqb k0 k) eqn:E.
      * apply String.eqb_eq in E; subst k0. exfalso. apply Hnin.
        change k with (fst (k, v)). now apply in_map.
      * now apply IH.
Qed.

Lemma combine_keys_NoDup (cols : list string) :
  NoDup cols -> forall row : list pyval, NoDup (keys (combine cols row)).
Proof.
  induction 1 as [|c cols Hnin _ IH]; intros row; simpl.
  - constructor.
  - destruct row as [|x row]; simpl; constructor.
    + intros Hin. apply Hnin. unfold keys in Hin.
      apply in_map_iff in Hin. destruct Hin as ([c' x'] & <- & Hin).
      now apply in_combine_l in Hin.
    + apply IH.
Qed.

Lemma combine_nth_error (cols : list string) :
  forall (row : list pyval) (j : nat) (col : string) (c : pyval),
    nth_error cols j = Some col -> nth_error row j = Some c ->
    nth_error (combine cols row) j = Some (col, c).
Proof.
  induction cols as [|c0 cols IH]; intros row j col c Hc Hr.
  - destruct j; discriminate.
  - destruct row as [|x row]; [destruct j; discriminate|].
    destruct j as [|j]; simpl in *.
    + congruence.
    + now apply IH.
Qed.

(** C6 fails on the code. In [typed_frame] the amounts are a float64
    column and the posting times a datetime64 column, each with a missing
    cell in the first row: the record of that row holds [nan] and [NaT],
    not [None]. Only the missing title of the second row, in the object
    column, becomes [None]. *)
Theorem C6_typed_columns_keep_missing_markers :
  convert_dataframe_to_dict typed_frame
  = [ [ ("title", PStr "Backend Engineer");
        ("min_amount", PFloat nan);
        ("date_posted", PNaT) ];
      [ ("title", PNone);
        ("min_amount", PFloat 90000);
        ("date_posted", PTimestamp 1736467200000000000) ] ]
  /\ Forall2 (Forall2 (fun dt c => cell_fits dt c = true))
       [dtypes typed_frame; dtypes typed_frame] (cells typed_frame)
  /\ missing_marker (PFloat nan) = true
  /\ missing_marker PNaT = true
  /\ PFloat nan <> PNone
  /\ PNaT <> PNone.
Proof.
  split; [reflexivity|]. split; [repeat constructor|].
  split; [reflexivity|]. split; [reflexivity|].
  split; discriminate.
Qed.

(** ** The constant handlers *)

(** C8. [GET /sites] answers with the same document whatever the world
    and the state of the process in which it is called: the answer is the
    literal [capabilities_document], and the call leaves the state as it
    was. *)
Theorem C8_capabilities_constant (w1 w2 : World) (s1 s2 : ServerState) :
  fst (get_sites w1 s1) = fst (get_sites w2 s2)
  /\ fst (get_sites w1 s1) = Ok200 capabilities_document
  /\ snd (get_sites w1 s1) = s1.
Proof.
  unfold get_sites, serve, get_supported_sites, ret. simpl.
  split; [reflexivity|]. split; reflexivity.
Qed.

(** C9. [GET /] and [GET /health] always answer with status 200 and a
    body whose [status] is [healthy] and whose [version] is [1.0.0]; the
    [timestamp] is the ISO form of the clock reading of the call. *)
Theorem C9_health_always_healthy (w : World) (s : ServerState) :
  let answer :=
    {| status := "healthy";
       version := "1.0.0";
       timestamp := isoformat (clock_now w (clock_reads s)) |} in
  fst (get_root w s) = Ok200 answer
  /\ fst (get_health w s) = Ok200 answer
  /\ http_status (fst (get_root w s)) = 200%Z
  /\ http_status (fst (get_health w s)) = 200%Z.
Proof.
  intros answer.
  unfold get_root, get_health, serve, root, health_check, bind, datetime_now,
    ret.
  simpl. repeat split.
Qed.

Lemma health_at_noon :
  fst (get_health scenario_a_world initial_state)
  = Ok200 {| status := "healthy";
             version := "1.0.0";
             timestamp := "2025-01-10T12:00:00" |}.
Proof. reflexivity. Qed.

(** * Further properties *)

(** ** The normaliser on arbitrary parameter lists *)

Lemma dict_set_entry (k0 : string) (v0 : pyval) (d : dict)
  (kv : string * pyval) :
  In kv (dict_set k0 v0 d) -> kv = (k0, v0) \/ In kv d.
Proof.
  induction d as [|[k1 v1] d IH]; simpl.
  - intros [<-|[]]. now left.
  - destruct (String.eqb k1 k0) eqn:E; simpl.
    + apply String.eqb_eq in E; subst k1.
      intros [<-|Hin]; [now left | right; now right].
    + intros [<-|Hin]; [right; now left|].
      destruct (IH Hin) as [Hv|Hd]; [now left | right; now right].
Qed.

Lemma dict_set_keys_in (k0 : string) (v0 : pyval) (d : dict) (k : string) :
  In k (keys (dict_set k0 v0 d)) -> k = k0 \/ In k (keys d).
Proof.
  unfold keys. intros Hin. apply in_map_iff in Hin.
  destruct Hin as (kv & <- & Hin).
  destruct (dict_set_entry _ _ _ _ Hin) as [->|Hd]; [now left|].
  right. now apply in_map.
Qed.

Lemma dict_set_keys_NoDup (k0 : string) (v0 : pyval) (d : dict) :
  NoDup (keys d) -> NoDup (keys (dict_set k0 v0 d)).
Proof.
  induction d as [|[k1 v1] d IH]; simpl; intros ND.
  - constructor; [tauto | constructor].
  - inversion ND as [|? ? Hnin ND']; subst.
    destruct (String.eqb k1 k0) eqn:E; simpl.
    + exact ND.
    + constructor; [|now apply IH].
      intros Hin. apply dict_set_keys_in in Hin.
      destruct Hin as [->|Hin]; [|contradiction].
      now rewrite String.eqb_refl in E.
Qed.

Lemma dict_set_fresh (k0 : string) (v0 : pyval) (d : dict) :
  ~ In k0 (keys d) -> dict_set k0 v0 d = d ++ [(k0, v0)].
Proof.
  induction d as [|[k1 v1] d IH]; simpl; intros Hnin.
  - reflexivity.
  - destruct (String.eqb k1 k0) eqn:E.
    + apply String.eqb_eq in E. tauto.
    + rewrite IH by tauto. reflexivity.
Qed.

(** What the loop of the comprehension keeps true of its accumulator. *)
Lemma clean_fold_invariant (params : dict) :
  forall out,
    NoDup (keys out) ->
    Forall (fun kv => snd kv <> PNone) out ->
    let result :=
      fold_left
        (fun out kv =>
           if is_none (snd kv) then out else dict_set (fst kv) (snd kv) out)
        params out in
    NoDup (keys result)
    /\ Forall (fun kv => snd kv <> PNone) result
    /\ (forall kv, In kv result -> In kv params \/ In kv out).
Proof.
  induction params as [|[k v] params IH]; simpl; intros out ND Hval.
  - split; [exact ND|]. split; [exact Hval|]. intros kv Hin. now right.
  - destruct (is_none v) eqn:Ev.
    + destruct (IH out ND Hval) as (H1 & H2 & H3).
      split; [exact H1|]. split; [exact H2|].
      intros kv Hin. destruct (H3 kv Hin) as [Hp|Ho]; [left; now right|now right].
    + assert (Hv : v <> PNone) by (intros ->; discriminate Ev).
      destruct (IH (dict_set k v out)) as (H1 & H2 & H3).
      * now apply dict_set_keys_NoDup.
      * apply Forall_forall. intros kv Hin.
        destruct (dict_set_entry _ _ _ _ Hin) as [->|Ho]; [exact Hv|].
        rewrite Forall_forall in Hval. now apply Hval.
      * split; [exact H1|]. split; [exact H2|].
        intros kv Hin. destruct (H3 kv Hin) as [Hp|Ho]; [left; now right|].
        destruct (dict_set_entry _ _ _ _ Ho) as [->|Ho']; [left; now left|now right].
Qed.

Lemma clean_search_params_values (params : dict) :
  Forall (fun kv => snd kv <> PNone) (clean_search_params params).
Proof.
  now destruct (clean_fold_invariant params [] (NoDup_nil _) (Forall_nil _))
    as (_ & Hval & _).
Qed.

(** X1. Whatever list of entries it is given, also one that repeats a
    key, [clean_search_params] answers with distinct keys, with no value
    [None], and with entries of its argument only. *)
Theorem clean_search_params_sound (params : dict) :
  NoDup (keys (clean_search_params params))
  /\ Forall (fun kv => snd kv <> PNone) (clean_search_params params)
  /\ (forall kv, In kv (clean_search_params params) -> In kv params).
Proof.
  destruct (clean_fold_invariant params [] (NoDup_nil _) (Forall_nil _))
    as (H1 & H2 & H3).
  split; [exact H1|]. split; [exact H2|].
  intros kv Hin. destruct (H3 kv Hin) as [Hp|[]]. exact Hp.
Qed.

Lemma clean_fold_filter (params : dict) :
  forall out,
    NoDup (keys (out ++ params)) ->
    fold_left
      (fun out kv =>
         if is_none (snd kv) then out else dict_set (fst kv) (snd kv) out)
      params out
    = out ++ filter not_none_entry params.
Proof.
  induction params as [|[k v] params IH]; simpl; intros out ND.
  - now rewrite app_nil_r.
  - unfold keys in ND. rewrite map_app in ND. simpl in ND.
    pose proof (NoDup_remove_1 _ _ _ ND) as ND1.
    pose proof (NoDup_remove_2 _ _ _ ND) as ND2.
    unfold not_none_entry at 1. simpl.
    destruct (is_none v); simpl.
    + apply IH. unfold keys. now rewrite map_app.
    + rewrite dict_set_fresh.
      * rewrite IH.
        -- now rewrite <- app_assoc.
        -- unfold keys. rewrite <- app_assoc, map_app. simpl. exact ND.
      * intros Hin. apply ND2. apply in_or_app. now left.
Qed.

(** X2. On a dictionary, whose keys are distinct, [clean_search_params] is
    the filter that drops the entries with value [None]: the entries that
    stay keep their order. *)
Theorem clean_search_params_is_filter (params : dict) :
  NoDup (keys params) ->
  clean_search_params params = filter not_none_entry params.
Proof.
  intros ND. unfold clean_search_params.
  now rewrite (clean_fold_filter params [] ND).
Qed.

Lemma clean_search_params_is_filter_witness :
  clean_search_params (model_dump falsy_request)
  = filter not_none_entry (model_dump falsy_request).
Proof.
  apply clean_search_params_is_filter.
  rewrite model_dump_keys. exact field_names_NoDup.
Defined.

Lemma filter_all_kept (d : dict) :
  Forall (fun kv => snd kv <> PNone) d -> filter not_none_entry d = d.
Proof.
  induction 1 as [|[k v] d Hv _ IH]; simpl.
  - reflexivity.
  - unfold not_none_entry at 1. simpl in *.
    rewrite (is_none_false v Hv). simpl. now rewrite IH.
Qed.

(** X3. Cleaning twice is cleaning once, for every argument. *)
Theorem clean_search_params_idempotent (params : dict) :
  clean_search_params (clean_search_params params)
  = clean_search_params params.
Proof.
  destruct (clean_fold_invariant params [] (NoDup_nil _) (Forall_nil _))
    as (ND & Hval & _).
  fold (clean_search_params params) in ND, Hval.
  unfold clean_search_params at 1.
  rewrite (clean_fold_filter (clean_search_params params) [] ND).
  simpl. now apply filter_all_kept.
Qed.

(** ** The parameter model, field by field *)

Ltac unfold_fields :=
  unfold request_errors, request_model,
    f_site_name, f_search_term, f_google_search_term, f_location,
    f_results_wanted, f_hours_old, f_job_type, f_is_remote, f_distance,
    f_country_indeed, f_easy_apply, f_description_format,
    f_linkedin_fetch_description, f_linkedin_company_ids, f_offset,
    f_enforce_annual_salary, f_proxies, f_ca_cert, f_verbose.

(** A field looks at its own key of the body and at nothing else. *)
Lemma field_ext {T : Type} (inner : validator T) (default : option T)
  (name : string) (b1 b2 : dict) :
  dict_get b1 name = dict_get b2 name ->
  field inner default name b1 = field inner default name b2.
Proof. intros Hb. unfold field. now rewrite Hb. Qed.

(** X4. Keys of the body that name no field are ignored: two bodies that
    agree on the nineteen field names validate to the same answer. *)
Theorem validate_request_ignores_unknown_keys `{Coercions} (b1 b2 : dict) :
  (forall k, In k field_names -> dict_get b1 k = dict_get b2 k) ->
  validate_request (PDict b1) = validate_request (PDict b2).
Proof.
  intros Hb. unfold validate_request.
  assert (He : request_errors b1 = request_errors b2).
  { unfold_fields.
    rewrite !(fun T inner d name =>
                @field_ext T inner d name b1 b2)
      by (apply Hb; simpl; tauto).
    reflexivity. }
  assert (Hm : request_model b1 = request_model b2).
  { unfold_fields.
    rewrite !(fun T inner d name =>
                @field_ext T inner d name b1 b2)
      by (apply Hb; simpl; tauto).
    reflexivity. }
  now rewrite He, Hm.
Qed.

Lemma validate_request_ignores_unknown_keys_witness :
  validate_request (PDict body_with_unknown_key)
  = validate_request (PDict body_without_unknown_key).
Proof.
  apply (validate_request_ignores_unknown_keys (H := exact_types)).
  intros k Hk. simpl in Hk.
  repeat (destruct Hk as [<-|Hk]; [reflexivity|]). contradiction.
Defined.

(** X5. An explicit [null] unsets a field, also a field that has a
    default: for each of the nineteen fields, when the body of an accepted
    request gives [null], the normalised parameters have no such key, so
    the engine is left to its own default. *)
Theorem explicit_null_removes_key `{Coercions} (b : dict)
  (r : JobSearchRequest) (name : string) :
  validate_request (PDict b) = Valid r ->
  In name field_names ->
  dict_get b name = Some PNone ->
  dict_get (model_dump r) name = Some PNone
  /\ ~ In name (keys (clean_search_params (model_dump r))).
Proof.
  intros Hr Hname Hnull.
  apply validate_request_valid in Hr. destruct Hr as [_ ->].
  assert (Hdump : dict_get (model_dump (request_model b)) name = Some PNone).
  { simpl in Hname.
    repeat (destruct Hname as [<-|Hname];
            [unfold_fields; simpl; rewrite (field_null _ _ _ _ Hnull);
             reflexivity|]).
    contradiction. }
  split; [exact Hdump|].
  apply dict_get_none_iff.
  rewrite clean_search_params_get
    by (rewrite model_dump_keys; exact field_names_NoDup).
  now rewrite Hdump.
Qed.

(** [{"results_wanted": null}]: the default 20 is not sent to the engine. *)
Lemma explicit_null_removes_key_witness :
  dict_get (model_dump (request_model null_results_wanted_body))
    "results_wanted" = Some PNone
  /\ ~ In "results_wanted"
         (keys (clean_search_params
                  (model_dump (request_model null_results_wanted_body)))).
Proof.
  apply (explicit_null_removes_key (H := exact_types)
           null_results_wanted_body
           (request_model null_results_wanted_body) "results_wanted").
  - reflexivity.
  - simpl. tauto.
  - reflexivity.
Defined.

(** ** What reaches the engine *)

(** X6. One request makes at most one call to the engine, and keeps the
    record of the earlier calls. It makes a call exactly when the body is
    valid and the import succeeds, whether the engine then returns or
    raises; the call carries the normalised parameters of the validated
    request. *)
Theorem post_search_calls_engine_at_most_once `{Coercions} (w : World)
  (body : pyval) (s : ServerState) :
  exists calls,
    engine_calls (snd (post_search w body s)) = engine_calls s ++ calls
    /\ (List.length calls <= 1)%nat
    /\ (calls <> [] <->
        exists request scrape_jobs,
          validate_request body = Valid request
          /\ jobspy_import w = inr scrape_jobs)
    /\ (forall request,
          validate_request body = Valid request ->
          forall params, In params calls ->
                         params = clean_search_params (model_dump request)).
Proof.
  rewrite post_search_engine_calls_eq.
  destruct (validate_request body) as [request|errors].
  - destruct (jobspy_import w) as [e|scrape_jobs].
    + exists []. rewrite app_nil_r. split; [reflexivity|].
      split; [simpl; lia|]. split.
      * split; [congruence|]. intros (r' & sj & _ & Hi). discriminate Hi.
      * intros _ _ params [].
    + exists [clean_search_params (model_dump request)].
      split; [reflexivity|]. split; [simpl; lia|]. split.
      * split; [|discriminate]. intros _. now exists request, scrape_jobs.
      * intros r' [= <-] params [<-|[]]. reflexivity.
  - exists []. rewrite app_nil_r. split; [reflexivity|].
    split; [simpl; lia|]. split.
    + split; [congruence|]. intros (r' & sj & Hv & _). discriminate Hv.
    + intros r' Hv. discriminate Hv.
Qed.

Lemma model_dump_results_wanted (r : JobSearchRequest) :
  dict_get (model_dump r) "results_wanted" = Some (dump_opt PInt (results_wanted r)).
Proof. reflexivity. Qed.

Lemma model_dump_verbose (r : JobSearchRequest) :
  dict_get (model_dump r) "verbose" = Some (dump_opt PInt (verbose r)).
Proof. reflexivity. Qed.

(** A bounded field in the normalised parameters. *)
Lemma clean_bounded_entry (r : JobSearchRequest) (name : string)
  (value : option Z) (lo hi : Z) :
  dict_get (model_dump r) name = Some (dump_opt PInt value) ->
  (forall n, value = Some n -> (lo <= n <= hi)%Z) ->
  dict_get (clean_search_params (model_dump r)) name = None
  \/ exists n, dict_get (clean_search_params (model_dump r)) name = Some (PInt n)
               /\ (lo <= n <= hi)%Z.
Proof.
  intros Hd Hb.
  rewrite clean_search_params_get
    by (rewrite model_dump_keys; exact field_names_NoDup).
  rewrite Hd. destruct value as [n|]; simpl.
  - right. exists n. split; [reflexivity | now apply Hb].
  - now left.
Qed.

(** X7. The engine is never called with a [None] value, nor with a
    [results_wanted] outside [1, 1000] or a [verbose] outside [0, 2]: in
    every call that a request adds, each of the two keys is either left
    out or an integer within its bounds. *)
Theorem engine_call_within_bounds `{Coercions} (w : World) (body : pyval)
  (s : ServerState) (params : dict) :
  In params (engine_calls (snd (post_search w body s))) ->
  In params (engine_calls s)
  \/ (Forall (fun kv => snd kv <> PNone) params
      /\ (dict_get params "results_wanted" = None
          \/ exists n, dict_get params "results_wanted" = Some (PInt n)
                       /\ (1 <= n <= 1000)%Z)
      /\ (dict_get params "verbose" = None
          \/ exists n, dict_get params "verbose" = Some (PInt n)
                       /\ (0 <= n <= 2)%Z)).
Proof.
  rewrite post_search_engine_calls_eq.
  destruct (validate_request body) as [request|errors] eqn:Hv; [|now left].
  destruct (jobspy_import w); [now left|].
  intros Hin. apply in_app_or in Hin. destruct Hin as [Hs|[<-|[]]]; [now left|].
  right.
  destruct body as [| | | | | |b| | |]; try discriminate Hv.
  destruct (validate_request_bounds b request Hv) as [Hrw Hvb].
  split; [apply clean_search_params_values|]. split.
  - exact (clean_bounded_entry request "results_wanted" (results_wanted request)
             1 1000 (model_dump_results_wanted request) Hrw).
  - exact (clean_bounded_entry request "verbose" (verbose request)
             0 2 (model_dump_verbose request) Hvb).
Qed.

(** The call of scenario A. *)
Lemma engine_call_within_bounds_witness :
  In (search_params scenario_a_response) (engine_calls initial_state)
  \/ (Forall (fun kv => snd kv <> PNone) (search_params scenario_a_response)
      /\ (dict_get (search_params scenario_a_response) "results_wanted" = None
          \/ exists n,
               dict_get (search_params scenario_a_response) "results_wanted"
               = Some (PInt n)
               /\ (1 <= n <= 1000)%Z)
      /\ (dict_get (search_params scenario_a_response) "verbose" = None
          \/ exists n,
               dict_get (search_params scenario_a_response) "verbose"
               = Some (PInt n)
               /\ (0 <= n <= 2)%Z)).
Proof.
  apply (engine_call_within_bounds (H := exact_types) scenario_a_world
           scenario_a_body initial_state).
  vm_compute. now left.
Defined.

(** ** Search results *)

(** X8. An engine that finds nothing is a success, not a failure: when
    the frame it returns has no row, the answer is the envelope with
    [success = true], [total_jobs = 0], no job and the message
    [Successfully found 0 jobs]. *)
Theorem empty_result_is_success `{Coercions} (w : World) (body : pyval)
  (s : ServerState) (request : JobSearchRequest) (scrape_jobs : engine)
  (df : DataFrame pyval) :
  validate_request body = Valid request ->
  jobspy_import w = inr scrape_jobs ->
  scrape_jobs (List.length (engine_calls s))
    (clean_search_params (model_dump request)) = inr df ->
  cells df = [] ->
  exists response,
    fst (post_search w body s) = Ok200 response
    /\ success response = true
    /\ total_jobs response = 0%Z
    /\ jobs response = []
    /\ message response = "Successfully found 0 jobs".
Proof.
  intros Hv Hi Hc Hrows. unfold post_search. rewrite Hv.
  rewrite (search_jobs_engine_returns w request s scrape_jobs df Hi Hc).
  exists (success_response w request s df). simpl.
  unfold convert_dataframe_to_dict, to_dict_records, df_where. simpl.
  rewrite Hrows. simpl. repeat split.
Qed.

Lemma empty_result_is_success_witness :
  exists response,
    fst (post_search no_rows_world scenario_a_body initial_state)
    = Ok200 response
    /\ success response = true
    /\ total_jobs response = 0%Z
    /\ jobs response = []
    /\ message response = "Successfully found 0 jobs".
Proof.
  apply (empty_result_is_success (H := exact_types) no_rows_world
           scenario_a_body initial_state scenario_a_request
           (fun _ _ => inr no_rows) no_rows);
    reflexivity.
Defined.

Lemma dict_of_pairs_distinct (pairs : list (string * pyval)) :
  forall acc,
    NoDup (keys (acc ++ pairs)) ->
    fold_left (fun out p => dict_set (fst p) (snd p) out) pairs acc
    = acc ++ pairs.
Proof.
  induction pairs as [|[k v] pairs IH]; simpl; intros acc ND.
  - now rewrite app_nil_r.
  - unfold keys in ND. rewrite map_app in ND. simpl in ND.
    pose proof (NoDup_remove_2 _ _ _ ND) as ND2.
    rewrite dict_set_fresh.
    + rewrite IH.
      * now rewrite <- app_assoc.
      * unfold keys. rewrite <- app_assoc, map_app. simpl. exact ND.
    + intros Hin. apply ND2. apply in_or_app. now left.
Qed.

Lemma combine_keys (cols : list string) :
  forall row : list pyval,
    List.length row = List.length cols -> keys (combine cols row) = cols.
Proof.
  induction cols as [|c cols IH]; intros [|x row]; simpl; intros Hlen;
    try reflexivity; try discriminate.
  f_equal. apply IH. now injection Hlen.
Qed.

Lemma dict_get_app (d1 d2 : dict) (k : string) :
  dict_get (d1 ++ d2) k =
  match dict_get d1 k with
  | Some v => Some v
  | None => dict_get d2 k
  end.
Proof.
  induction d1 as [|[k1 v1] d1 IH]; simpl.
  - reflexivity.
  - destruct (String.eqb k1 k); [reflexivity | exact IH].
Qed.

(** [dict(pairs)] answers with the last pair of each key. *)
Lemma dict_of_pairs_last (pairs : list (string * pyval)) (k : string) :
  forall acc,
    dict_get (fold_left (fun out p => dict_set (fst p) (snd p) out) pairs acc) k
    = match dict_get (rev pairs) k with
      | Some v => Some v
      | None => dict_get acc k
      end.
Proof.
  induction pairs as [|[k0 v0] pairs IH]; simpl; intros acc.
  - reflexivity.
  - rewrite IH, dict_get_app, dict_get_set. simpl.
    destruct (dict_get (rev pairs) k); [reflexivity|].
    destruct (String.eqb k0 k); reflexivity.
Qed.

Lemma dict_of_pairs_keys_NoDup (pairs : list (string * pyval)) :
  forall acc,
    NoDup (keys acc) ->
    NoDup (keys (fold_left (fun out p => dict_set (fst p) (snd p) out)
                   pairs acc)).
Proof.
  induction pairs as [|p pairs IH]; simpl; intros acc ND.
  - exact ND.
  - apply IH. now apply dict_set_keys_NoDup.
Qed.

Lemma combine_nth_error_fst (cols : list string) :
  forall (row : list pyval) (j : nat) (kv : string * pyval),
    nth_error (combine cols row) j = Some kv ->
    nth_error cols j = Some (fst kv).
Proof.
  induction cols as [|c0 cols IH]; intros row j kv Hj.
  - destruct j; discriminate.
  - destruct row as [|x row]; [destruct j; discriminate|].
    destruct j as [|j]; simpl in *.
    + now injection Hj as <-.
    + now apply (IH row).
Qed.

(** The reversed pairs answer with the last pair of a key. *)
Lemma dict_get_rev_last (pairs : list (string * pyval)) :
  forall (j : nat) (k : string) (v : pyval),
    nth_error pairs j = Some (k, v) ->
    (forall j' kv, j < j' -> nth_error pairs j' = Some kv -> fst kv <> k) ->
    dict_get (rev pairs) k = Some v.
Proof.
  induction pairs as [|[k0 v0] pairs IH]; intros j k v Hj Hlater.
  - destruct j; discriminate.
  - simpl. rewrite dict_get_app. destruct j as [|j]; simpl in Hj.
    + injection Hj as -> ->.
      rewrite dict_get_not_in.
      * simpl. now rewrite String.eqb_refl.
      * intros Hin. unfold keys in Hin. rewrite map_rev in Hin.
        apply in_rev in Hin.
        apply in_map_iff in Hin. destruct Hin as (kv & Hk & Hin).
        apply In_nth_error in Hin. destruct Hin as [n Hn].
        apply (Hlater (S n) kv); [lia | exact Hn | exact Hk].
    + rewrite (IH j k v Hj); [reflexivity|].
      intros j' kv Hlt Hn. apply (Hlater (S j') kv); [lia | exact Hn].
Qed.

(** The record of a row under the label of a column that no later column
    repeats. *)
Lemma convert_cell_of_last_column (df : DataFrame pyval) (i j : nat)
  (row : list pyval) (col : string) (dt : dtype) (c : pyval) :
  nth_error (cells df) i = Some row ->
  nth_error (columns df) j = Some col ->
  nth_error (dtypes df) j = Some dt ->
  nth_error row j = Some c ->
  (forall j', j < j' -> nth_error (columns df) j' <> Some col) ->
  exists record,
    nth_error (convert_dataframe_to_dict df) i = Some record
    /\ NoDup (keys record)
    /\ dict_get record col = Some (normalized_cell dt c).
Proof.
  intros Hrow Hcol Hdt Hc Hlater. rewrite convert_dataframe_to_dict_rows.
  exists (dict_of_pairs
            (combine (columns df) (normalized_row (dtypes df) row))).
  split; [|split].
  - exact (map_nth_error
             (fun row =>
                dict_of_pairs
                  (combine (columns df) (normalized_row (dtypes df) row)))
             _ _ Hrow).
  - unfold dict_of_pairs. apply dict_of_pairs_keys_NoDup. constructor.
  - unfold dict_of_pairs. rewrite dict_of_pairs_last.
    rewrite (dict_get_rev_last _ j col (normalized_cell dt c)).
    + reflexivity.
    + apply combine_nth_error; [exact Hcol|].
      now apply normalized_row_nth.
    + intros j' kv Hlt Hn Hk. apply (Hlater j' Hlt).
      apply combine_nth_error_fst in Hn. now rewrite Hn, Hk.
Qed.

Lemma typed_frame_columns_NoDup : NoDup (columns typed_frame).
Proof.
  simpl.
  repeat (constructor;
          [simpl; intros Hin;
           repeat (destruct Hin as [Hin|Hin]; [discriminate Hin|]); exact Hin|]).
  constructor.
Qed.

(** X9. When the column labels of the frame are distinct, the record of
    a row as long as the list of columns has exactly the columns as keys,
    in their order, and under the label of a column it holds: the cell
    itself when the cell carries a value; [None] for a missing cell of an
    object column; but [nan] for a missing cell of a float64 column and
    [NaT] for one of a datetime64 column. *)
Theorem records_follow_columns (df : DataFrame pyval) :
  NoDup (columns df) ->
  (forall i row record,
     nth_error (cells df) i = Some row ->
     nth_error (convert_dataframe_to_dict df) i = Some record ->
     List.length row = List.length (columns df) ->
     keys record = columns df)
  /\ (forall i j row col dt c,
        nth_error (cells df) i = Some row ->
        nth_error (columns df) j = Some col ->
        nth_error (dtypes df) j = Some dt ->
        nth_error row j = Some c ->
        cell_fits dt c = true ->
        exists record,
          nth_error (convert_dataframe_to_dict df) i = Some record
          /\ (present_value c = true -> dict_get record col = Some c)
          /\ (missing_marker c = true ->
              dict_get record col =
              Some match dt with
                   | object => PNone
                   | datetime64 => PNaT
                   | float64 | int64 | bool_dtype => PFloat nan
                   end)).
Proof.
  intros ND. split.
  - intros i row record Hrow Hrec Hlen.
    rewrite convert_dataframe_to_dict_rows in Hrec.
    rewrite (map_nth_error _ _ _ Hrow) in Hrec. injection Hrec as <-.
    unfold dict_of_pairs.
    rewrite dict_of_pairs_distinct by (simpl; now apply combine_keys_NoDup).
    simpl. apply combine_keys. now rewrite normalized_row_length.
  - intros i j row col dt c Hrow Hcol Hdt Hc _.
    destruct (convert_cell_of_last_column df i j row col dt c Hrow Hcol Hdt Hc)
      as (record & Hrec & _ & Hget).
    + intros j' Hlt Hj'.
      assert (Hjlt : j < List.length (columns df))
        by (apply nth_error_Some; congruence).
      rewrite NoDup_nth_error in ND.
      specialize (ND j j' Hjlt). rewrite Hcol, Hj' in ND.
      specialize (ND eq_refl). lia.
    + exists record. split; [exact Hrec|]. split.
      * intros Hp. now rewrite Hget, normalized_cell_present.
      * intros Hm. now rewrite Hget, normalized_cell_missing.
Qed.

(** The first row of [typed_frame]: the title is kept, the missing amount
    stays [nan]. *)
Lemma records_follow_columns_witness :
  exists record,
    nth_error (convert_dataframe_to_dict typed_frame) 0 = Some record
    /\ keys record = columns typed_frame
    /\ dict_get record "title" = Some (PStr "Backend Engineer")
    /\ dict_get record "min_amount" = Some (PFloat nan).
Proof.
  destruct (records_follow_columns typed_frame typed_frame_columns_NoDup)
    as [Hkeys Hcells].
  destruct (Hcells 0%nat 1%nat [PStr "Backend Engineer"; PFloat nan; PNaT]
              "min_amount" float64 (PFloat nan)
              eq_refl eq_refl eq_refl eq_refl eq_refl)
    as (record & Hrec & _ & Hmissing).
  destruct (Hcells 0%nat 0%nat [PStr "Backend Engineer"; PFloat nan; PNaT]
              "title" object (PStr "Backend Engineer")
              eq_refl eq_refl eq_refl eq_refl eq_refl)
    as (record0 & Hrec0 & Hpresent & _).
  rewrite Hrec in Hrec0. injection Hrec0 as <-.
  exists record. split; [exact Hrec|]. split; [|split].
  - exact (Hkeys 0%nat [PStr "Backend Engineer"; PFloat nan; PNaT] record
             eq_refl Hrec eq_refl).
  - apply Hpresent. reflexivity.
  - apply Hmissing. reflexivity.
Defined.

(** X10. Whatever the labels of the frame, a record has each key once,
    and under a label it holds what the last column bearing that label
    gives: the cell itself when it carries a value, and for a missing
    cell [None], [nan] or [NaT] by the dtype of that column. Of two
    columns with the same label the earlier one is lost. *)
Theorem records_keep_last_of_repeated_label (df : DataFrame pyval)
  (i j : nat) (row : list pyval) (col : string) (dt : dtype) (c : pyval) :
  nth_error (cells df) i = Some row ->
  nth_error (columns df) j = Some col ->
  nth_error (dtypes df) j = Some dt ->
  nth_error row j = Some c ->
  cell_fits dt c = true ->
  (forall j', j < j' -> nth_error (columns df) j' <> Some col) ->
  exists record,
    nth_error (convert_dataframe_to_dict df) i = Some record
    /\ NoDup (keys record)
    /\ (present_value c = true -> dict_get record col = Some c)
    /\ (missing_marker c = true ->
        dict_get record col =
        Some match dt with
             | object => PNone
             | datetime64 => PNaT
             | float64 | int64 | bool_dtype => PFloat nan
             end).
Proof.
  intros Hrow Hcol Hdt Hc _ Hlater.
  destruct (convert_cell_of_last_column df i j row col dt c
              Hrow Hcol Hdt Hc Hlater) as (record & Hrec & Hkeys & Hget).
  exists record. split; [exact Hrec|]. split; [exact Hkeys|]. split.
  - intros Hp. now rewrite Hget, normalized_cell_present.
  - intros Hm. now rewrite Hget, normalized_cell_missing.
Qed.

(** Two columns labelled [salary]: the record holds the 30 of the second
    one, not the 10 of the first; the missing title, in a float64 column,
    stays [nan]. *)
Lemma records_keep_last_of_repeated_label_witness :
  (exists record,
     nth_error (convert_dataframe_to_dict repeated_label_frame) 0 = Some record
     /\ NoDup (keys record)
     /\ dict_get record "salary" = Some (PInt 30))
  /\ (exists record,
        nth_error (convert_dataframe_to_dict repeated_label_frame) 0
        = Some record
        /\ dict_get record "title" = Some (PFloat nan)).
Proof.
  split.
  - destruct (records_keep_last_of_repeated_label repeated_label_frame 0 2
                [PInt 10; PFloat nan; PInt 30] "salary" int64 (PInt 30)
                eq_refl eq_refl eq_refl eq_refl eq_refl)
      as (record & Hrec & Hkeys & Hpresent & _).
    + intros j' Hlt. destruct j' as [|[|[|j']]]; try lia.
      simpl. destruct j'; discriminate.
    + exists record. split; [exact Hrec|]. split; [exact Hkeys|].
      apply Hpresent. reflexivity.
  - destruct (records_keep_last_of_repeated_label repeated_label_frame 0 1
                [PInt 10; PFloat nan; PInt 30] "title" float64 (PFloat nan)
                eq_refl eq_refl eq_refl eq_refl eq_refl)
      as (record & Hrec & _ & _ & Hmissing).
    + intros j' Hlt. destruct j' as [|[|[|j']]]; try lia.
      * discriminate.
      * simpl. destruct j'; discriminate.
    + exists record. split; [exact Hrec|]. apply Hmissing. reflexivity.
Defined.

Lemma repeated_label_record :
  convert_dataframe_to_dict repeated_label_frame
  = [ [("salary", PInt 30); ("title", PFloat nan)] ].
Proof. reflexivity. Qed.

(** ** Effects of a search *)

Lemma search_jobs_except_effects (e : exn) (s : ServerState) :
  snd (search_jobs_except e s)
  = {| clock_reads := clock_reads s;
       engine_calls := engine_calls s;
       log := log s ++ [error_record e] |}.
Proof.
  unfold search_jobs_except, error_record.
  destruct (exn_class_of e); reflexivity.
Qed.

(** X11. What a search reads and writes, by the stage it reaches. When
    the import raises, no clock is read and the log gains the error
    record. When the engine raises, the clock was read once and the log
    gains the start record and the error record. When the engine returns,
    the clock is read twice, [execution_time] is the second reading minus
    the first, and the log gains the start record and the record of the
    number of rows and of that duration. The earlier log is kept. *)
Theorem search_jobs_effects (w : World) (request : JobSearchRequest)
  (s : ServerState) :
  let params := clean_search_params (model_dump request) in
  let s' := snd (search_jobs w request s) in
  match jobspy_import w with
  | inl e =>
      clock_reads s' = clock_reads s
      /\ log s' = log s ++ [error_record e]
  | inr scrape_jobs =>
      match scrape_jobs (List.length (engine_calls s)) params with
      | inl e =>
          clock_reads s' = S (clock_reads s)
          /\ log s' = log s ++ [InfoStarting params; error_record e]
      | inr df =>
          let seconds :=
            PrimFloat.sub (clock_time w (S (clock_reads s)))
              (clock_time w (clock_reads s)) in
          clock_reads s' = S (S (clock_reads s))
          /\ log s' = log s ++ [InfoStarting params;
                                InfoFound (List.length (cells df)) seconds]
          /\ exists response,
               fst (search_jobs w request s) = inr (inr response)
               /\ execution_time response = seconds
      end
  end.
Proof.
  intros params s'. subst s'.
  destruct (jobspy_import w) as [e|scrape_jobs] eqn:Hi.
  - rewrite (search_jobs_import_raises w request s e Hi),
      search_jobs_except_effects.
    split; reflexivity.
  - destruct (scrape_jobs (List.length (engine_calls s)) params)
      as [e|df] eqn:Hc.
    + rewrite (search_jobs_engine_raises w request s scrape_jobs e Hi Hc),
        search_jobs_except_effects.
      simpl. rewrite <- app_assoc. split; reflexivity.
    + rewrite (search_jobs_engine_returns w request s scrape_jobs df Hi Hc).
      simpl. split; [reflexivity|]. split.
      * rewrite <- app_assoc. simpl.
        rewrite convert_dataframe_to_dict_rows, length_map. reflexivity.
      * eexists. split; reflexivity.
Qed.

(** ** The errors of a refused body *)

Lemma scalar_located {T : Type} (conv : pyval -> string + T)
  (at_loc : list loc_item) (v : pyval) (errs : list validation_error) :
  scalar conv at_loc v = inl errs ->
  errs <> [] /\ Forall (fun e => loc e = at_loc) errs.
Proof.
  unfold scalar. destruct (conv v); [|discriminate].
  intros [= <-]. split; [discriminate|]. now repeat constructor.
Qed.

Lemma bounded_int_located `{Coercions} (ge le : Z) (at_loc : list loc_item)
  (v : pyval) (errs : list validation_error) :
  bounded_int ge le at_loc v = inl errs ->
  errs <> [] /\ Forall (located_at at_loc) errs.
Proof.
  unfold bounded_int.
  destruct (scalar as_int at_loc v) as [e|n] eqn:E.
  - intros [= <-]. destruct (scalar_located _ _ _ _ E) as [Hne Hall].
    split; [exact Hne|]. eapply Forall_impl; [|exact Hall].
    intros e' He'. now left.
  - destruct (n <? ge)%Z; [|destruct (le <? n)%Z; [|discriminate]];
      intros [= <-]; (split; [discriminate|]);
      repeat constructor; now left.
Qed.

Lemma list_items_located {T : Type} (conv : pyval -> string + T)
  (at_loc : list loc_item) (items : list pyval) :
  forall i,
    Forall (located_at at_loc)
      (fst (list_items (scalar conv) at_loc i items)).
Proof.
  induction items as [|v items IH]; intros i; simpl.
  - constructor.
  - specialize (IH (S i)).
    destruct (list_items (scalar conv) at_loc (S i) items) as [errs xs].
    destruct (scalar conv (at_loc ++ [LIndex i]) v) as [e|x] eqn:E; simpl.
    + apply Forall_app. split; [|exact IH].
      destruct (scalar_located _ _ _ _ E) as [_ Hall].
      eapply Forall_impl; [|exact Hall].
      intros e' He'. right. now exists i.
    + exact IH.
Qed.

Lemma list_of_located {T : Type} (conv : pyval -> string + T)
  (at_loc : list loc_item) (v : pyval) (errs : list validation_error) :
  list_of (scalar conv) at_loc v = inl errs ->
  errs <> [] /\ Forall (located_at at_loc) errs.
Proof.
  unfold list_of.
  destruct v; try (intros [= <-]; split; [discriminate|];
                   repeat constructor; now left).
  pose proof (list_items_located conv at_loc l 0) as Hall.
  destruct (list_items (scalar conv) at_loc 0 l) as [[|e errs'] xs];
    [discriminate|].
  intros [= <-]. split; [discriminate | exact Hall].
Qed.

(** The errors of one field are located at the field. *)
Lemma field_located {T : Type} (inner : validator T) (default : option T)
  (name : string) (b : dict) :
  (forall v errs,
     inner [LKey "body"; LKey name] v = inl errs ->
     errs <> [] /\ Forall (located_at [LKey "body"; LKey name]) errs) ->
  Forall (located_at [LKey "body"; LKey name])
    (errors_of (field inner default name b)).
Proof.
  intros Hinner. unfold field.
  destruct (dict_get b name) as [v|]; [|constructor].
  assert (Hv : Forall (located_at [LKey "body"; LKey name])
                 (errors_of match inner [LKey "body"; LKey name] v with
                            | inl e => inl e
                            | inr x => inr (Some x)
                            end)).
  { destruct (inner [LKey "body"; LKey name] v) as [e|x] eqn:E; simpl.
    - now apply (Hinner v e).
    - constructor. }
  destruct v; try exact Hv. constructor.
Qed.

Lemma scalar_field_located {T : Type} (conv : pyval -> string + T)
  (default : option T) (name : string) (b : dict) :
  Forall (located_at [LKey "body"; LKey name])
    (errors_of (field (scalar conv) default name b)).
Proof.
  apply field_located. intros v errs E.
  destruct (scalar_located _ _ _ _ E) as [Hne Hall].
  split; [exact Hne|]. eapply Forall_impl; [|exact Hall].
  intros e He. now left.
Qed.

Lemma list_field_located {T : Type} (conv : pyval -> string + T)
  (default : option (list T)) (name : string) (b : dict) :
  Forall (located_at [LKey "body"; LKey name])
    (errors_of (field (list_of (scalar conv)) default name b)).
Proof.
  apply field_located. intros v errs. apply list_of_located.
Qed.

Lemma bounded_field_located `{Coercions} (ge le : Z) (default : option Z)
  (name : string) (b : dict) :
  Forall (located_at [LKey "body"; LKey name])
    (errors_of (field (bounded_int ge le) default name b)).
Proof.
  apply field_located. intros v errs. apply bounded_int_located.
Qed.

Lemma located_names_field (name : string) (errs : list validation_error) :
  In name field_names ->
  Forall (located_at [LKey "body"; LKey name]) errs ->
  Forall (fun e => exists name, In name field_names
                                /\ located_at [LKey "body"; LKey name] e) errs.
Proof.
  intros Hname. apply Forall_impl. intros e He. now exists name.
Qed.

(** X12. A refused body is refused for a reason: the list of errors is
    never empty. When the body is a JSON object, every error is located
    at one of the nineteen declared fields, or at one item of a list given
    for such a field. When the body is not a JSON object, there is one
    error, located at the body itself. *)
Theorem validation_errors_name_fields `{Coercions} (body : pyval)
  (errors : list validation_error) :
  validate_request body = Invalid errors ->
  errors <> []
  /\ match body with
     | PDict _ =>
         Forall (fun e => exists name,
                            In name field_names
                            /\ located_at [LKey "body"; LKey name] e)
           errors
     | _ => exists e, errors = [e] /\ loc e = [LKey "body"]
     end.
Proof.
  unfold validate_request.
  destruct body as [| | | | | |b| | |];
    try (intros [= <-]; split; [discriminate|]; eexists; split; reflexivity).
  destruct (request_errors b) as [|e0 errs0] eqn:He; [discriminate|].
  intros [= <-]. split; [discriminate|]. rewrite <- He.
  unfold_fields.
  repeat (apply Forall_app; split);
    (eapply located_names_field;
     [| first [ apply scalar_field_located
              | apply list_field_located
              | apply bounded_field_located ] ];
     simpl; tauto).
Qed.

(** A body with an item of the wrong type in [proxies] besides two values
    out of range. *)
Lemma validation_errors_name_fields_witness :
  request_errors three_errors_body <> []
  /\ Forall (fun e => exists name, In name field_names
                                   /\ located_at [LKey "body"; LKey name] e)
       (request_errors three_errors_body).
Proof.
  apply (validation_errors_name_fields (H := exact_types)
           (PDict three_errors_body)).
  reflexivity.
Defined.

(** A JSON array as the body. *)
Lemma array_body_error :
  validate_request (PList [])
  = Invalid [ {| loc := [LKey "body"]; err_type := "model_attributes_type" |} ].
Proof. reflexivity. Qed.

Lemma three_errors_locations :
  map loc (request_errors three_errors_body)
  = [ [LKey "body"; LKey "results_wanted"];
      [LKey "body"; LKey "proxies"; LIndex 1];
      [LKey "body"; LKey "verbose"] ].
Proof. reflexivity. Qed.

(** ** Fields without a check on their value *)

Lemma scalar_field_given {T : Type} (conv : pyval -> string + T)
  (default : option T) (name : string) (b : dict) (v : pyval) (x : T) :
  dict_get b name = Some v -> v <> PNone -> conv v = inr x ->
  field (scalar conv) default name b = inr (Some x).
Proof.
  intros Hb Hv Hx. rewrite (field_given _ _ _ _ v Hb Hv).
  apply (scalar_inr conv [LKey "body"; LKey name]) in Hx. now rewrite Hx.
Qed.

(** X13. The values that the descriptions of [job_type] and
    [description_format] list, and the sign of [distance], [hours_old] and
    [offset], are not checked: each of these fields takes whatever string,
    or whatever integer, the given value converts to, and reports no
    error. *)
Theorem described_values_not_enforced `{Coercions} (b : dict) :
  (forall v s,
     dict_get b "job_type" = Some v -> v <> PNone -> as_str v = inr s ->
     f_job_type b = inr (Some s))
  /\ (forall v s,
        dict_get b "description_format" = Some v -> v <> PNone ->
        as_str v = inr s ->
        f_description_format b = inr (Some s))
  /\ (forall v n,
        dict_get b "distance" = Some v -> v <> PNone -> as_int v = inr n ->
        f_distance b = inr (Some n))
  /\ (forall v n,
        dict_get b "hours_old" = Some v -> v <> PNone -> as_int v = inr n ->
        f_hours_old b = inr (Some n))
  /\ (forall v n,
        dict_get b "offset" = Some v -> v <> PNone -> as_int v = inr n ->
        f_offset b = inr (Some n)).
Proof.
  repeat split; intros v x Hb Hv Hx.
  - exact (scalar_field_given as_str _ "job_type" b v x Hb Hv Hx).
  - exact (scalar_field_given as_str _ "description_format" b v x Hb Hv Hx).
  - exact (scalar_field_given as_int _ "distance" b v x Hb Hv Hx).
  - exact (scalar_field_given as_int _ "hours_old" b v x Hb Hv Hx).
  - exact (scalar_field_given as_int _ "offset" b v x Hb Hv Hx).
Qed.

(** A job type [gig], a format [pdf] and a distance of [-5] miles. *)
Lemma described_values_not_enforced_witness :
  f_job_type off_description_body = inr (Some "gig")
  /\ f_description_format off_description_body = inr (Some "pdf")
  /\ f_distance off_description_body = inr (Some (-5)%Z).
Proof.
  destruct (described_values_not_enforced (H := exact_types)
              off_description_body) as (Hj & Hf & Hd & _).
  split; [|split].
  - apply (Hj (PStr "gig")); [reflexivity | discriminate | reflexivity].
  - apply (Hf (PStr "pdf")); [reflexivity | discriminate | reflexivity].
  - apply (Hd (PInt (-5))); [reflexivity | discriminate | reflexivity].
Defined.

(** The body is accepted as a whole, and the engine receives the values. *)
Lemma off_description_body_reaches_engine :
  engine_calls
    (snd (post_search scenario_a_world (PDict off_description_body)
            initial_state))
  = [ [ ("site_name", PList [PStr "indeed"; PStr "linkedin"; PStr "glassdoor"]);
        ("results_wanted", PInt 20);
        ("hours_old", PInt (-1));
        ("job_type", PStr "gig");
        ("distance", PInt (-5));
        ("country_indeed", PStr "USA");
        ("description_format", PStr "pdf");
        ("linkedin_fetch_description", PBool false);
        ("offset", PInt (-25));
        ("verbose", PInt 1) ] ].
Proof. reflexivity. Qed.

(** ** Bounds, defaults and the round trip through [model_dump] *)

(** X14. The bounds are inclusive and they are the only check on the
    value: a [results_wanted] that converts to the integer [n] passes its
    field exactly when [1 <= n <= 1000], and a [verbose] exactly when
    [0 <= n <= 2]; the field then holds [n]. *)
Theorem bounded_fields_accept_exactly_the_range `{Coercions} (b : dict)
  (v : pyval) (n : Z) :
  v <> PNone -> as_int v = inr n ->
  (dict_get b "results_wanted" = Some v ->
   (f_results_wanted b = inr (Some n) <-> (1 <= n <= 1000)%Z)
   /\ (errors_of (f_results_wanted b) = [] <-> (1 <= n <= 1000)%Z))
  /\ (dict_get b "verbose" = Some v ->
      (f_verbose b = inr (Some n) <-> (0 <= n <= 2)%Z)
      /\ (errors_of (f_verbose b) = [] <-> (0 <= n <= 2)%Z)).
Proof.
  intros Hv Hn.
  assert (Hfield : forall name lo hi d,
            dict_get b name = Some v ->
            (field (bounded_int lo hi) d name b = inr (Some n)
             <-> (lo <= n <= hi)%Z)
            /\ (errors_of (field (bounded_int lo hi) d name b) = []
                <-> (lo <= n <= hi)%Z)).
  { intros name lo hi d Hb. rewrite (field_given _ _ _ _ v Hb Hv).
    destruct (Z_le_dec lo n) as [Hlo|Hlo];
      [destruct (Z_le_dec n hi) as [Hhi|Hhi]|].
    - rewrite (bounded_int_in_range lo hi _ v n Hn (conj Hlo Hhi)). simpl.
      split; split; intros _; try reflexivity; lia.
    - destruct (bounded_int_out_of_range lo hi [LKey "body"; LKey name] v n Hn)
        as [ty ->]; [lia|].
      simpl. split; split; intros Hx; try discriminate Hx; lia.
    - destruct (bounded_int_out_of_range lo hi [LKey "body"; LKey name] v n Hn)
        as [ty ->]; [lia|].
      simpl. split; split; intros Hx; try discriminate Hx; lia. }
  split; intros Hb.
  - exact (Hfield "results_wanted" 1%Z 1000%Z _ Hb).
  - exact (Hfield "verbose" 0%Z 2%Z _ Hb).
Qed.

(** The two ends of the range of [results_wanted], and the first value
    past each end of the range of [verbose]. *)
Lemma bounded_fields_witness :
  (f_results_wanted [("results_wanted", PInt 1)] = inr (Some 1%Z)
   <-> (1 <= 1 <= 1000)%Z)
  /\ (f_results_wanted [("results_wanted", PInt 1000)] = inr (Some 1000%Z)
      <-> (1 <= 1000 <= 1000)%Z)
  /\ (errors_of (f_verbose [("verbose", PInt 3)]) = []
      <-> (0 <= 3 <= 2)%Z)
  /\ (errors_of (f_verbose [("verbose", PInt (-1))]) = []
      <-> (0 <= -1 <= 2)%Z).
Proof.
  split; [|split; [|split]].
  - apply (bounded_fields_accept_exactly_the_range (H := exact_types)
             [("results_wanted", PInt 1)] (PInt 1) 1);
      [discriminate | reflexivity | reflexivity].
  - apply (bounded_fields_accept_exactly_the_range (H := exact_types)
             [("results_wanted", PInt 1000)] (PInt 1000) 1000);
      [discriminate | reflexivity | reflexivity].
  - apply (bounded_fields_accept_exactly_the_range (H := exact_types)
             [("verbose", PInt 3)] (PInt 3) 3);
      [discriminate | reflexivity | reflexivity].
  - apply (bounded_fields_accept_exactly_the_range (H := exact_types)
             [("verbose", PInt (-1))] (PInt (-1)) (-1));
      [discriminate | reflexivity | reflexivity].
Defined.

(** X15. A field that the body leaves out takes its default whatever the
    rest of the body holds: in an accepted request, [model_dump] gives
    such a field the value it has in the request of all defaults. *)
Theorem missing_key_takes_default `{Coercions} (b : dict)
  (r : JobSearchRequest) (name : string) :
  validate_request (PDict b) = Valid r ->
  In name field_names ->
  dict_get b name = None ->
  dict_get (model_dump r) name = dict_get (model_dump default_request) name.
Proof.
  intros Hr Hname Hmissing.
  apply validate_request_valid in Hr. destruct Hr as [_ ->].
  simpl in Hname.
  repeat (destruct Hname as [<-|Hname];
          [unfold_fields; simpl; rewrite (field_missing _ _ _ _ Hmissing);
           reflexivity|]).
  contradiction.
Qed.

(** Scenario A leaves [distance] out: the engine is given 50. *)
Lemma missing_key_takes_default_witness :
  dict_get (model_dump scenario_a_request) "distance"
  = dict_get (model_dump default_request) "distance".
Proof.
  apply (missing_key_takes_default (H := exact_types)
           [ ("search_term", PStr "software engineer");
             ("location", PStr "Austin, TX");
             ("results_wanted", PInt 5);
             ("site_name", PList [PStr "indeed"]) ]
           scenario_a_request "distance").
  - reflexivity.
  - simpl. tauto.
  - reflexivity.
Defined.

Lemma field_of_dump {T : Type} (inner : validator T) (default : option T)
  (name : string) (b : dict) (f : T -> pyval) (x : option T) :
  dict_get b name = Some (dump_opt f x) ->
  (forall a, f a <> PNone) ->
  (forall a, x = Some a -> inner [LKey "body"; LKey name] (f a) = inr a) ->
  field inner default name b = inr x.
Proof.
  intros Hb Hf Hinner. destruct x as [a|]; simpl in Hb.
  - rewrite (field_given _ _ _ _ (f a) Hb (Hf a)).
    now rewrite (Hinner a eq_refl).
  - now apply field_null.
Qed.

Lemma scalar_field_of_dump {T : Type} (conv : pyval -> string + T)
  (default : option T) (name : string) (b : dict) (f : T -> pyval)
  (x : option T) :
  (forall a, f a <> PNone) ->
  (forall a, conv (f a) = inr a) ->
  dict_get b name = Some (dump_opt f x) ->
  field (scalar conv) default name b = inr x.
Proof.
  intros Hf Hlaw Hb. apply (field_of_dump _ _ _ _ f x Hb Hf).
  intros a _. apply scalar_inr. apply Hlaw.
Qed.

Lemma list_field_of_dump {T : Type} (conv : pyval -> string + T)
  (default : option (list T)) (name : string) (b : dict) (f : T -> pyval)
  (x : option (list T)) :
  (forall a, conv (f a) = inr a) ->
  dict_get b name = Some (dump_opt (fun l => PList (map f l)) x) ->
  field (list_of (scalar conv)) default name b = inr x.
Proof.
  intros Hlaw Hb.
  apply (field_of_dump _ _ _ _ (fun l => PList (map f l)) x Hb);
    [discriminate|].
  intros l _. unfold list_of.
  rewrite (list_items_scalar_ok conv _ (map f l) l); [reflexivity|].
  induction l as [|a l IH]; simpl; constructor; [apply Hlaw | exact IH].
Qed.

Lemma bounded_field_of_dump `{Coercions} (ge le : Z) (default : option Z)
  (name : string) (b : dict) (x : option Z) :
  (forall n, as_int (PInt n) = inr n) ->
  (forall n, x = Some n -> (ge <= n <= le)%Z) ->
  dict_get b name = Some (dump_opt PInt x) ->
  field (bounded_int ge le) default name b = inr x.
Proof.
  intros Hlaw Hrange Hb.
  apply (field_of_dump _ _ _ _ PInt x Hb); [discriminate|].
  intros n Hn. apply bounded_int_in_range; [apply Hlaw | now apply Hrange].
Qed.

(** X16. Round trip. When the conversions accept an integer, a string and
    a boolean as they are, a request whose [results_wanted] and [verbose]
    respect their bounds is recovered from its [model_dump]: validating
    the dump as a body gives the request back. *)
Theorem model_dump_validates_back `{Coercions} (r : JobSearchRequest) :
  (forall n, as_int (PInt n) = inr n) ->
  (forall s, as_str (PStr s) = inr s) ->
  (forall x, as_bool (PBool x) = inr x) ->
  (forall n, results_wanted r = Some n -> (1 <= n <= 1000)%Z) ->
  (forall n, verbose r = Some n -> (0 <= n <= 2)%Z) ->
  validate_request (PDict (model_dump r)) = Valid r.
Proof.
  intros Hint Hstr Hbool Hrw Hvb.
  assert (Ns : forall s, PStr s <> PNone) by discriminate.
  assert (Ni : forall n, PInt n <> PNone) by discriminate.
  assert (Nb : forall x, PBool x <> PNone) by discriminate.
  apply validate_request_valid. unfold_fields.
  rewrite (list_field_of_dump as_str _ "site_name" (model_dump r) PStr
             (site_name r) Hstr eq_refl).
  rewrite (scalar_field_of_dump as_str _ "search_term" (model_dump r) PStr
             (search_term r) Ns Hstr eq_refl).
  rewrite (scalar_field_of_dump as_str _ "google_search_term" (model_dump r)
             PStr (google_search_term r) Ns Hstr eq_refl).
  rewrite (scalar_field_of_dump as_str _ "location" (model_dump r) PStr
             (location r) Ns Hstr eq_refl).
  rewrite (bounded_field_of_dump 1 1000 _ "results_wanted" (model_dump r)
             (results_wanted r) Hint Hrw eq_refl).
  rewrite (scalar_field_of_dump as_int _ "hours_old" (model_dump r) PInt
             (hours_old r) Ni Hint eq_refl).
  rewrite (scalar_field_of_dump as_str _ "job_type" (model_dump r) PStr
             (job_type r) Ns Hstr eq_refl).
  rewrite (scalar_field_of_dump as_bool _ "is_remote" (model_dump r) PBool
             (is_remote r) Nb Hbool eq_refl).
  rewrite (scalar_field_of_dump as_int _ "distance" (model_dump r) PInt
             (distance r) Ni Hint eq_refl).
  rewrite (scalar_field_of_dump as_str _ "country_indeed" (model_dump r) PStr
             (country_indeed r) Ns Hstr eq_refl).
  rewrite (scalar_field_of_dump as_bool _ "easy_apply" (model_dump r) PBool
             (easy_apply r) Nb Hbool eq_refl).
  rewrite (scalar_field_of_dump as_str _ "description_format" (model_dump r)
             PStr (description_format r) Ns Hstr eq_refl).
  rewrite (scalar_field_of_dump as_bool _ "linkedin_fetch_description"
             (model_dump r) PBool (linkedin_fetch_description r) Nb Hbool
             eq_refl).
  rewrite (list_field_of_dump as_int _ "linkedin_company_ids" (model_dump r)
             PInt (linkedin_company_ids r) Hint eq_refl).
  rewrite (scalar_field_of_dump as_int _ "offset" (model_dump r) PInt
             (offset r) Ni Hint eq_refl).
  rewrite (scalar_field_of_dump as_bool _ "enforce_annual_salary"
             (model_dump r) PBool (enforce_annual_salary r) Nb Hbool eq_refl).
  rewrite (list_field_of_dump as_str _ "proxies" (model_dump r) PStr
             (proxies r) Hstr eq_refl).
  rewrite (scalar_field_of_dump as_str _ "ca_cert" (model_dump r) PStr
             (ca_cert r) Ns Hstr eq_refl).
  rewrite (bounded_field_of_dump 0 2 _ "verbose" (model_dump r)
             (verbose r) Hint Hvb eq_refl).
  split; [reflexivity|]. destruct r; reflexivity.
Qed.

Lemma model_dump_validates_back_witness :
  validate_request (PDict (model_dump falsy_request)) = Valid falsy_request.
Proof.
  apply (model_dump_validates_back (H := exact_types) falsy_request).
  - reflexivity.
  - reflexivity.
  - reflexivity.
  - intros n [= <-]. lia.
  - intros n [= <-]. lia.
Defined.

(** The normalised parameters do not give the request back: a field unset
    by [null] is left out of them, and validation then restores its
    default. *)
Lemma normalised_parameters_lose_null :
  validate_request
    (PDict (clean_search_params
              (model_dump (request_model null_results_wanted_body))))
  <> Valid (request_model null_results_wanted_body).
Proof. discriminate. Qed.
